(** * nba_clusters: a shallow embedding of [nba_clusters.py]

    The script fetches a roster and per-player career statistics over HTTP,
    joins them, scans the cluster counts 2..8 with KMeans, keeps the
    partition with the best silhouette score and reports cluster membership.

    The embedding follows the script function by function.  The Python
    built-ins and the pandas operations the script calls are modelled in the
    modules [Py] and [Pandas]; the network, [Series.astype(int)], KMeans and
    the silhouette score are parameters of the section [Script]. *)

From Stdlib Require Import ZArith QArith Qcanon Ascii String.
From stdpp Require Import base decidable option list numbers strings gmap.

Local Open Scope Z_scope.

(** ** Python values, exceptions and built-ins *)

Module Py.

(** The exception classes the script can raise.  [External] stands for an
    exception raised inside a library call (requests, json, numpy, sklearn). *)
Inductive exn : Type :=
| KeyError
| IndexError
| TypeError
| ValueError
| AttributeError
| UnboundLocalError
| External (name : string).

(** The outcome of evaluating an expression: a value or a raised exception. *)
Inductive result (A : Type) : Type :=
| Ok (a : A)
| Raise (e : exn).
Arguments Ok {A} a.
Arguments Raise {A} e.

#[export] Instance result_ret : MRet result := fun A a => Ok a.
#[export] Instance result_bind : MBind result := fun A B f r =>
  match r with
  | Ok a => f a
  | Raise e => Raise e
  end.

(** A cell of a table, as [json.loads] and pandas hand it to the script:
    null (None / NaN), a boolean, an integer, a finite float (kept as the
    rational it denotes) or a string of code points below 256. *)
Inductive value : Type :=
| VNone
| VBool (b : bool)
| VInt (z : Z)
| VFloat (q : Qc)
| VStr (s : string).

#[export] Instance value_eq_dec : EqDecision value.
Proof. solve_decision. Defined.

#[export] Instance exn_eq_dec : EqDecision exn.
Proof. solve_decision. Defined.

(** [str.isspace] on one code point below 256: U+0009..U+000D,
    U+001C..U+0020, U+0085 and U+00A0. *)
Definition isspace (c : ascii) : bool :=
  let n := N_of_ascii c in
  (((9 <=? n) && (n <=? 13)) || ((28 <=? n) && (n <=? 32))
   || (n =? 133) || (n =? 160))%N.

(** [s.split()] without arguments: the maximal runs of non-whitespace
    characters, in order.  [tok] is the run being read. *)
Fixpoint split_from (tok : string) (s : string) : list string :=
  match s with
  | EmptyString => if decide (tok = EmptyString) then [] else [tok]
  | String c s' =>
      if isspace c
      then (if decide (tok = EmptyString) then split_from EmptyString s'
            else tok :: split_from EmptyString s')
      else split_from (tok +:+ String c EmptyString) s'
  end.

Definition split (s : string) : list string := split_from EmptyString s.

(** [l[0]] and [l[-1]] on a list. *)
Definition getitem_first {A} (l : list A) : result A :=
  match head l with
  | Some x => Ok x
  | None => Raise IndexError
  end.

Definition getitem_last {A} (l : list A) : result A :=
  match last l with
  | Some x => Ok x
  | None => Raise IndexError
  end.

(** [l[i]] for a non-negative literal [i]. *)
Definition getitem {A} (l : list A) (i : nat) : result A :=
  match l !! i with
  | Some x => Ok x
  | None => Raise IndexError
  end.

(** [v.split()]: only strings have the method. *)
Definition str_split (v : value) : result (list string) :=
  match v with
  | VStr s => Ok (split s)
  | _ => Raise AttributeError
  end.

(** [range(a, b)]. *)
Definition range (a b : Z) : list Z := seqZ a (b - a).

(** Reading a local variable that may not have been assigned yet. *)
Definition local {A} (x : option A) : result A :=
  match x with
  | Some a => Ok a
  | None => Raise UnboundLocalError
  end.

(** [d[k]] on a dict with integer keys. *)
Definition dict_getitem {V} (d : gmap Z V) (k : Z) : result V :=
  match d !! k with
  | Some v => Ok v
  | None => Raise KeyError
  end.

(** Using a variable that holds [None] where a number or a sequence is
    required ([range(None)], [enumerate(None)]). *)
Definition not_none {A} (x : option A) : result A :=
  match x with
  | Some a => Ok a
  | None => Raise TypeError
  end.

End Py.
Export Py.

(** ** The pandas operations the script uses *)

Module Pandas.

(** A frame: its column labels and its rows, every row aligned with the
    labels.  Column labels are looked up by their first occurrence. *)
Record DataFrame : Type := {
  columns : list string;
  rows : list (list value)
}.

(** [len(df)] *)
Definition nrows (df : DataFrame) : nat := length (rows df).

Definition column_index (df : DataFrame) (name : string) : option nat :=
  fst <$> list_find (fun c => c = name) (columns df).

Definition cell (r : list value) (j : nat) : value := default VNone (r !! j).

(** [df[name]]: the column as a sequence; [KeyError] when it is absent. *)
Definition getitem_col (df : DataFrame) (name : string) : result (list value) :=
  match column_index df name with
  | Some j => Ok ((fun r => cell r j) <$> rows df)
  | None => Raise KeyError
  end.

(** [df.NAME]: the same column through attribute access. *)
Definition getattr_col (df : DataFrame) (name : string) : result (list value) :=
  match column_index df name with
  | Some j => Ok ((fun r => cell r j) <$> rows df)
  | None => Raise AttributeError
  end.

(** [df.NAME = col] for an existing column and a sequence of [len(df)]
    entries. *)
Definition setattr_col (df : DataFrame) (name : string) (col : list value)
  : DataFrame :=
  match column_index df name with
  | Some j =>
      {| columns := columns df;
         rows := zip_with (fun r v => <[j := v]> r) (rows df) col |}
  | None => df
  end.

(** [df[names]] for a list of labels. *)
Definition getitem_cols (df : DataFrame) (names : list string) : result DataFrame :=
  js ← mapM (fun name => match column_index df name with
                          | Some j => Ok j
                          | None => Raise KeyError
                          end) names;
  Ok {| columns := names;
        rows := (fun r => (fun j => cell r j) <$> js) <$> rows df |}.

(** [df.iloc[i]] and [df.iloc[i][name]]. *)
Definition iloc (df : DataFrame) (i : nat) : result (list value) :=
  match rows df !! i with
  | Some r => Ok r
  | None => Raise IndexError
  end.

Definition row_getitem (df : DataFrame) (r : list value) (name : string)
  : result value :=
  match column_index df name with
  | Some j => Ok (cell r j)
  | None => Raise KeyError
  end.

Definition pad (width : nat) (r : list value) : list value :=
  r ++ replicate (width - length r) VNone.

(** *** Column types

    pandas keeps one type per column.  Among the cells [json.loads] can
    yield, only integers change when a column is built or extended: a
    column of numbers and nulls that holds an integer beside a float or a
    null is a float64 column, and its integers are stored as floats.  Any
    other column keeps its cells: integers alone (int64), floats and nulls
    (float64), booleans alone (bool), anything else (object).

    A frame carries no types here: the type of a column is read off its
    cells, and a null stands for [None] and for [NaN] alike.  This is what
    pandas holds for a frame built by [from_records], and for frames
    appended or merged as long as no boolean and no integer beyond 64 bits
    occurs and no int64 column meets a column without a value (no cell, or
    nulls alone); pandas keeps the integers of such a pair as objects,
    which cells alone do not tell from an int64 column. *)

(** The integers of an int64 column. *)
Definition fits_int64 (z : Z) : bool := (- 2 ^ 63 <=? z) && (z <? 2 ^ 63).

(** The integer nearest to [z] that a float64 holds: [z] rounded to 53
    significant bits, ties to the even neighbour. *)
Definition round_to_53_bits (z : Z) : Z :=
  let a := Z.abs z in
  let bits := Z.log2 a + 1 in
  if bits <=? 53 then z
  else
    let shift := bits - 53 in
    let q := Z.shiftr a shift in
    let r := a - Z.shiftl q shift in
    let half := Z.shiftl 1 (shift - 1) in
    let q' := if (half <? r) || ((r =? half) && Z.odd q) then q + 1 else q in
    Z.sgn z * Z.shiftl q' shift.

(** [float(z)] *)
Definition float_of_int (z : Z) : Qc := Q2Qc (inject_Z (round_to_53_bits z)).

(** A cell as a float64 column stores it. *)
Definition as_float (v : value) : value :=
  match v with
  | VInt z => VFloat (float_of_int z)
  | _ => v
  end.

Definition is_int64_cell (v : value) : bool :=
  match v with
  | VInt z => fits_int64 z
  | _ => false
  end.

Definition is_float_or_null (v : value) : bool :=
  match v with
  | VFloat _ | VNone => true
  | _ => false
  end.

(** The column is a float64 column that holds integers: every cell is a
    64-bit integer, a float or a null, with an integer and a float or
    null among them. *)
Definition needs_float (col : list value) : bool :=
  forallb (fun v => is_int64_cell v || is_float_or_null v) col
  && existsb is_int64_cell col
  && existsb is_float_or_null col.

(** The column as pandas stores it. *)
Definition convert_column (col : list value) : list value :=
  if needs_float col then as_float <$> col else col.

(** The row with the cells of the columns marked in [mask] as floats. *)
Definition apply_mask (mask : list bool) (r : list value) : list value :=
  imap (fun j v => if default false (mask !! j) then as_float v else v) r.

(** The rows of a frame with [n] columns, each column as pandas stores it. *)
Definition convert_rows (n : nat) (rs : list (list value)) : list (list value) :=
  let mask := (fun j => needs_float ((fun r => cell r j) <$> rs)) <$> seq 0 n in
  apply_mask mask <$> rs.

(** [pd.DataFrame.from_records(data, columns=cols)] on a list of lists.
    The records are laid out in an object array as wide as the longest
    record (shorter ones are filled with None) and cut into one array per
    column, each with the type inferred from its cells; the number of
    arrays must be the number of labels.  With no record, or no column
    array, the frame has the labels and no row. *)
Definition from_records (data : list (list value)) (cols : list string)
  : result DataFrame :=
  match data with
  | [] => Ok {| columns := cols; rows := [] |}
  | _ =>
      let width := max_list (length <$> data) in
      if decide (width = length cols)
      then Ok {| columns := cols;
                 rows := if decide (width = 0%nat) then []
                         else convert_rows width (pad width <$> data) |}
      else Raise ValueError
  end.

Definition lookup_in (cols : list string) (r : list value) (c : string) : value :=
  match list_find (fun c' => c' = c) cols with
  | Some (j, _) => cell r j
  | None => VNone
  end.

(** [df.append(other)]: the rows of [other] after those of [df], every
    column with the common type of its two parts.  When the labels differ
    the result has the labels of [df] followed by the new ones of [other]
    (unsorted, as with [sort=False]), and the missing cells are null. *)
Definition append (df other : DataFrame) : DataFrame :=
  if decide (columns df = columns other)
  then {| columns := columns df;
          rows := convert_rows (length (columns df)) (rows df ++ rows other) |}
  else
    let cols := columns df ++ filter (fun c => c ∉ columns df) (columns other) in
    {| columns := cols;
       rows := convert_rows (length cols)
                 (((fun r => lookup_in (columns df) r <$> cols) <$> rows df)
                  ++ ((fun r => lookup_in (columns other) r <$> cols) <$> rows other)) |}.

(** The number a key cell denotes, if it denotes one. *)
Definition number_of (v : value) : option Qc :=
  match v with
  | VInt z => Some (Q2Qc (inject_Z z))
  | VFloat q => Some q
  | VBool b => Some (Q2Qc (inject_Z (if b then 1 else 0)))
  | _ => None
  end.

(** Two key cells match: the same number, or the same cell. *)
Definition key_eq (v v' : value) : bool :=
  match number_of v, number_of v' with
  | Some q, Some q' => bool_decide (q = q')
  | None, None => bool_decide (v = v')
  | _, _ => false
  end.

(** What [merge] makes of a key column: no cell, numbers, or objects, with
    or without an integer among them. *)
Inductive key_kind : Type := KEmpty | KNumber | KBool | KObject (with_int : bool).

Definition kind_of_key (col : list value) : key_kind :=
  match col with
  | [] => KEmpty
  | _ =>
      if forallb (fun v => match v with VBool _ => true | _ => false end) col
      then KBool
      else if forallb (fun v => is_int64_cell v || is_float_or_null v) col
                && existsb (fun v => match v with VNone => false | _ => true end) col
      then KNumber
      else KObject (existsb (fun v => match v with VInt _ => true | _ => false end) col)
  end.

(** [merge] refuses to join numbers with objects that hold no integer
    ("You are trying to merge on object and int64 columns"). *)
Definition keys_compatible (lcol rcol : list value) : bool :=
  match kind_of_key lcol, kind_of_key rcol with
  | KObject false, KNumber | KNumber, KObject false => false
  | _, _ => true
  end.

(** The right rows whose key matches, in the order of the right frame. *)
Definition matches (right : DataFrame) (rk : nat) (key : value) : list (list value) :=
  filter (fun r => key_eq (cell r rk) key = true) (rows right).

(** The rows a left row is joined with: every matching right row; one row
    of nulls when there is none. *)
Definition joined_rows (right : DataFrame) (rk : nat) (mask : list bool)
    (key : value) (l : list value) : list (list value) :=
  match matches right rk key with
  | [] => [l ++ replicate (length (columns right)) VNone]
  | rs => (fun r => l ++ apply_mask mask r) <$> rs
  end.

(** The int64 columns of the right frame become float64 columns once a
    left row has no match, since they then hold a null. *)
Definition right_mask (left right : DataFrame) (lk rk : nat) : list bool :=
  if existsb (fun l => bool_decide (matches right rk (cell l lk) = [])) (rows left)
  then (fun j => forallb is_int64_cell ((fun r => cell r j) <$> rows right))
       <$> seq 0 (length (columns right))
  else [].

(** [left.merge(right, left_on=lo, right_on=ro, how='left')].  A label that
    occurs in both frames gets the suffix [_x] on the left and [_y] on the
    right; the order of the left rows is kept, and so are their cells. *)
Definition merge_left (left right : DataFrame) (lo ro : string) : result DataFrame :=
  match column_index left lo, column_index right ro with
  | Some lk, Some rk =>
      if keys_compatible ((fun r => cell r lk) <$> rows left)
                         ((fun r => cell r rk) <$> rows right)
      then
        Ok {| columns :=
                ((fun c => if decide (c ∈ columns right) then c +:+ "_x" else c)
                   <$> columns left)
                ++ ((fun c => if decide (c ∈ columns left) then c +:+ "_y" else c)
                      <$> columns right);
              rows := l ← rows left;
                      joined_rows right rk (right_mask left right lk rk) (cell l lk) l |}
      else Raise ValueError
  | _, _ => Raise KeyError
  end.

End Pandas.
Export Pandas.

(** ** The outside world: HTTP, standard output, the clock *)

Module IO.

(** The address of a request: a literal, or [base + str(player_id)], kept
    in its two parts. *)
Inductive url : Type :=
| Url (u : string)
| UrlWithId (base : string) (player_id : value).

Record request : Type := {
  req_url : url;
  req_headers : list (string * string)
}.

(** A result set of the statistics service: [headers] names the fields,
    [rowSet] holds the records. *)
Record result_set : Type := {
  rs_headers : list string;
  rs_rowSet : list (list value)
}.

(** A decoded response body, read through its key [resultSets]. *)
Record response : Type := {
  resultSets : list result_set
}.

(** The lines the script prints. *)
Inductive message : Type :=
| Added (i : nat) (pid : value)
| Score (n : Z) (avg_silhouette : Qc)
| Returning (optimal_n : option Z).

Inductive event : Type :=
| Requested (r : request)
| Printed (m : message)
| Slept (seconds : Z).

(** The state a run threads: the world behind the library calls and the
    trace of what the script did to it, oldest event first. *)
Record state (World : Type) : Type := {
  world : World;
  trace : list event
}.
Arguments world {World} s.
Arguments trace {World} s.

(** A computation of the script: it may raise, and it may change the state
    also when it raises. *)
Definition M (World : Type) (A : Type) : Type :=
  state World -> result A * state World.

#[export] Instance M_ret {World} : MRet (M World) := fun A a s => (Ok a, s).
#[export] Instance M_bind {World} : MBind (M World) := fun A B f m s =>
  match m s with
  | (Ok a, s') => f a s'
  | (Raise e, s') => (Raise e, s')
  end.

Definition lift {World A} (r : result A) : M World A := fun s => (r, s).

Definition emit {World} (e : event) : M World unit := fun s =>
  (Ok tt, {| world := world s; trace := trace s ++ [e] |}).

(** [print(...)] and [time.sleep(seconds)] *)
Definition print {World} (m : message) : M World unit := emit (Printed m).
Definition sleep {World} (seconds : Z) : M World unit := emit (Slept seconds).

(** The requests of a trace, in the order they were sent. *)
Definition requests_of (t : list event) : list request :=
  omap (fun e => match e with Requested r => Some r | _ => None end) t.

End IO.
Export IO.

(** One entry of the cluster report. *)
Record player : Type := {
  player_id : value;
  first_name : string;
  last_name : string
}.

(** The running best of the scan over the cluster counts.  A fitted
    [KMeans] object is identified by its [n_clusters]. *)
Record best : Type := {
  optimal_n : option Z;
  optimal_clusters : option (list Z);
  optimal_clusterer : option Z;
  optimal_silhouette : Qc
}.

(** A scored candidate: the cluster count, the labels and the score. *)
Record candidate : Type := {
  cand_n : Z;
  cand_labels : list Z;
  cand_score : Qc
}.

(** ** Sample data and stand-ins for the library calls

    A small roster, a statistics service that answers for some players and
    fails for one, and deterministic stand-ins for [astype(int)], KMeans and
    the silhouette score; they are used to run the script on concrete
    inputs.  The world is the number of library calls made so far. *)

Module Sample.

Definition user_agent : list (string * string) := [("User-Agent", "Mozilla/5.0")].

Definition roster : DataFrame :=
  {| columns := ["PERSON_ID"; "DISPLAY_LAST_COMMA_FIRST"; "TO_YEAR"];
     rows := [[VInt 201; VStr "Smith, John"; VInt 2018];
              [VInt 202; VStr "Smith"; VInt 2018];
              [VInt 203; VStr "Curry, Stephen"; VInt 2018]] |}.

(** The roster, followed by a player the service refuses and one more. *)
Definition roster_with_unknown : DataFrame :=
  {| columns := ["PERSON_ID"; "DISPLAY_LAST_COMMA_FIRST"; "TO_YEAR"];
     rows := [[VInt 201; VStr "Smith, John"; VInt 2018];
              [VInt 202; VStr "Smith"; VInt 2018];
              [VInt 203; VStr "Curry, Stephen"; VInt 2018];
              [VInt 204; VStr "Doe, Jane"; VInt 2018];
              [VInt 201; VStr "Smith, John"; VInt 2018]] |}.

Definition no_players : DataFrame :=
  {| columns := ["PERSON_ID"; "DISPLAY_LAST_COMMA_FIRST"; "TO_YEAR"];
     rows := [] |}.

Definition roster_set : result_set :=
  {| rs_headers := ["PERSON_ID"; "DISPLAY_LAST_COMMA_FIRST"; "TO_YEAR"];
     rs_rowSet := [[VInt 201; VStr "Smith, John"; VStr "2018"];
                   [VInt 202; VStr "Smith"; VStr "2018"];
                   [VInt 203; VStr "Curry, Stephen"; VStr "2018"]] |}.

Definition season_totals (pid : Z) : result_set :=
  {| rs_headers := ["PLAYER_ID"; "SEASON_ID"; "PTS"];
     rs_rowSet := [[VInt pid; VStr "2016-17"; VInt 10];
                   [VInt pid; VStr "2017-18"; VInt 14]] |}.

Definition career_totals (pid : Z) (pts : Z) : result_set :=
  {| rs_headers := ["PLAYER_ID"; "PTS"; "AST"];
     rs_rowSet := [[VInt pid; VInt pts; VInt (pts - 5)]] |}.

(** The service: the roster at any literal address; career totals for the
    players 201 and 203, an answer without a record for 202, and a refused
    connection for every other player. *)
Definition service (r : request) (calls : nat) : result response * nat :=
  (match req_url r with
   | Url _ => Ok {| resultSets := [roster_set] |}
   | UrlWithId _ (VInt 201) =>
       Ok {| resultSets := [season_totals 201; career_totals 201 12] |}
   | UrlWithId _ (VInt 202) =>
       Ok {| resultSets := [season_totals 202;
                            {| rs_headers := ["PLAYER_ID"; "PTS"; "AST"];
                               rs_rowSet := [] |}] |}
   | UrlWithId _ (VInt 203) =>
       Ok {| resultSets := [season_totals 203; career_totals 203 25] |}
   | UrlWithId _ _ => Raise (External "ConnectionError")
   end, S calls).

(** Career averages: a team name and points per game. *)
Definition career_averages (pid : Z) (team : string) (pts : Qc) : result_set :=
  {| rs_headers := ["PLAYER_ID"; "TEAM"; "PTS"];
     rs_rowSet := [[VInt pid; VStr team; VFloat pts]] |}.

(** A service that answers with career averages for the players 201 and
    203 and without a record for every other player. *)
Definition averages (r : request) (calls : nat) : result response * nat :=
  (match req_url r with
   | Url _ => Ok {| resultSets := [roster_set] |}
   | UrlWithId _ (VInt 201) =>
       Ok {| resultSets := [season_totals 201;
                            career_averages 201 "LAL" (Q2Qc (25 # 2))] |}
   | UrlWithId _ (VInt 203) =>
       Ok {| resultSets := [season_totals 203;
                            career_averages 203 "GSW" (Q2Qc (51 # 2))] |}
   | UrlWithId _ _ =>
       Ok {| resultSets := [season_totals 0;
                            {| rs_headers := ["PLAYER_ID"; "TEAM"; "PTS"];
                               rs_rowSet := [] |}] |}
   end, S calls).

(** Two seasons of a player, the second without games played, and a
    service that answers every request with them. *)
Definition seasons : result_set :=
  {| rs_headers := ["PLAYER_ID"; "SEASON_ID"; "GP"; "PTS"];
     rs_rowSet := [[VInt 201; VStr "2016-17"; VInt 5; VFloat (Q2Qc (3 # 2))];
                   [VInt 201; VStr "2017-18"; VNone; VInt 2]] |}.

Definition seasons_everywhere (r : request) (calls : nat) : result response * nat :=
  (Ok {| resultSets := [roster_set; seasons] |}, S calls).

(** A stand-in for [astype(int)]: integers and strings of decimal digits
    are accepted, every other cell is refused. *)
Fixpoint digits_value (acc : Z) (s : string) : option Z :=
  match s with
  | EmptyString => Some acc
  | String c s' =>
      let n := Z.of_N (N_of_ascii c) in
      if decide (48 <= n <= 57) then digits_value (10 * acc + (n - 48)) s'
      else None
  end.

Definition int_of_cell (v : value) : result Z :=
  match v with
  | VInt z => Ok z
  | VStr (String c s) =>
      match digits_value 0 (String c s) with
      | Some z => Ok z
      | None => Raise ValueError
      end
  | _ => Raise ValueError
  end.

Fixpoint ints_of_column (col : list value) : result (list Z) :=
  match col with
  | [] => Ok []
  | v :: col' =>
      z ← int_of_cell v;
      zs ← ints_of_column col';
      Ok (z :: zs)
  end.

(** Nine players with two features. *)
Definition players : DataFrame :=
  {| columns := ["PERSON_ID"; "DISPLAY_LAST_COMMA_FIRST"; "PTS"; "AST"];
     rows := (fun i : Z => [VInt (100 + i); VStr "Doe, Jane"; VInt (i * i); VInt i])
             <$> range 0 9 |}.

(** Nine players named "Smith, John", with the same two features. *)
Definition smiths : DataFrame :=
  {| columns := ["PERSON_ID"; "DISPLAY_LAST_COMMA_FIRST"; "PTS"; "AST"];
     rows := (fun i : Z => [VInt (100 + i); VStr "Smith, John"; VInt (i * i); VInt i])
             <$> range 0 9 |}.

(** A stand-in for KMeans: row [i] gets the label [i mod n]. *)
Definition round_robin (n : Z) (X : DataFrame) (calls : nat)
  : result (list Z) * nat :=
  (Ok ((fun i : nat => Z.of_nat i mod n) <$> seq 0 (nrows X)), S calls).

(** A stand-in for the silhouette score, by the number of labels in use:
    three and four clusters tie for the best score. *)
Definition tied_score (X : DataFrame) (labels : list Z) : result Qc :=
  let k := foldr Z.max 0 labels + 1 in
  Ok (if decide (k = 2) then Q2Qc (1 # 4)
      else if decide (k = 3) then Q2Qc (1 # 2)
      else if decide (k = 4) then Q2Qc (1 # 2)
      else Q2Qc (-1 # 10)).

(** What the stand-ins yield for the cluster count [n] on [players]. *)
Definition scored (n : Z) : candidate :=
  {| cand_n := n;
     cand_labels := (fun i : Z => i mod n) <$> range 0 9;
     cand_score := if decide (n = 2) then Q2Qc (1 # 4)
                   else if decide (n = 3) then Q2Qc (1 # 2)
                   else if decide (n = 4) then Q2Qc (1 # 2)
                   else Q2Qc (-1 # 10) |}.

Definition start : state nat := {| world := 0%nat; trace := [] |}.

(** A service that answers every request with the roster alone, and one
    that answers every request with the statistics of player 201. *)
Definition roster_everywhere (r : request) (calls : nat) : result response * nat :=
  (Ok {| resultSets := [roster_set] |}, S calls).

Definition career_everywhere (r : request) (calls : nat) : result response * nat :=
  (Ok {| resultSets := [season_totals 201; career_totals 201 12] |}, S calls).

(** A stand-in for KMeans that does not converge for five clusters. *)
Definition fails_at_five (n : Z) (X : DataFrame) (calls : nat)
  : result (list Z) * nat :=
  if decide (n = 5) then (Raise (External "ConvergenceError"), S calls)
  else round_robin n X calls.

(** A score function that is not a silhouette score: always -100. *)
Definition low_score (X : DataFrame) (labels : list Z) : result Qc :=
  Ok (Q2Qc (-100)).

(** Players with a long name, a blank name and a missing name. *)
Definition odd_names : DataFrame :=
  {| columns := ["PERSON_ID"; "DISPLAY_LAST_COMMA_FIRST"];
     rows := [[VInt 301; VStr "De La Cruz, Juan Carlos"];
              [VInt 302; VStr "   "];
              [VInt 303; VNone]] |}.

End Sample.

(** ** The script *)

Section Script.

Context {World : Type}.

(** [json.loads(requests.get(url, headers=headers).content)], restricted to
    bodies that are objects with a [resultSets] list of result sets; any
    failure of the request or of the decoding is a raised exception. *)
Variable requests_get : request -> World -> result response * World.

(** [Series.astype(int)] on a column. *)
Variable astype_int : list value -> result (list Z).

(** [KMeans(n_clusters=n).fit_predict(X)]: unseeded, so it reads and
    advances the world. *)
Variable fit_predict : Z -> DataFrame -> World -> result (list Z) * World.

(** [silhouette_score(X, labels)].  The score is a finite float (sklearn
    replaces undefined sample coefficients by 0), kept as the rational it
    denotes, so that [>] on floats is the order of [Qc]. *)
Variable silhouette_score : DataFrame -> list Z -> result Qc.

Definition http_get (r : request) : M World response := fun s =>
  let (res, w) := requests_get r (world s) in
  (res, {| world := w; trace := trace s ++ [Requested r] |}).

Definition kmeans_fit_predict (n : Z) (X : DataFrame) : M World (list Z) := fun s =>
  let (res, w) := fit_predict n X (world s) in
  (res, {| world := w; trace := trace s |}).

(** [df.NAME = df.NAME.astype(int)] *)
Definition coerce_column (df : DataFrame) (name : string) : result DataFrame :=
  col ← getattr_col df name;
  ints ← astype_int col;
  Ok (setattr_col df name (VInt <$> ints)).

Definition get_players_df (players_url : string) (headers : list (string * string))
  : M World DataFrame :=
  players_json ← http_get {| req_url := Url players_url; req_headers := headers |};
  players_result_set ← lift (getitem (resultSets players_json) 0);
  df_players ← lift (from_records (rs_rowSet players_result_set)
                                  (rs_headers players_result_set));
  lift (coerce_column df_players "TO_YEAR").

Definition get_player_career_reg_season_stats
    (player_id : value) (player_data_url : string) (headers : list (string * string))
  : M World DataFrame :=
  player_data_json ← http_get {| req_url := UrlWithId player_data_url player_id;
                                 req_headers := headers |};
  career_totals ← lift (getitem (resultSets player_data_json) 1);
  df_career_totals ← lift (from_records (rs_rowSet career_totals)
                                        (rs_headers career_totals));
  lift (coerce_column df_career_totals "PLAYER_ID").

(** The body of [for i, pid in enumerate(df_players['PERSON_ID'])];
    [df_stats] is [None] while the variable is unbound. *)
Fixpoint get_player_stats_loop (url : string) (headers : list (string * string))
    (i : nat) (pids : list value) (df_stats : option DataFrame)
  : M World (option DataFrame) :=
  match pids with
  | [] => mret df_stats
  | pid :: rest =>
      new ← (if decide (i = 0%nat)
             then get_player_career_reg_season_stats pid url headers
             else acc ← lift (local df_stats);
                  t ← get_player_career_reg_season_stats pid url headers;
                  mret (append acc t));
      print (Added i pid);;
      sleep 2;;
      get_player_stats_loop url headers (S i) rest (Some new)
  end.

Definition get_player_stats (df_players : DataFrame) (url : string)
    (headers : list (string * string)) : M World DataFrame :=
  pids ← lift (getitem_col df_players "PERSON_ID");
  df_stats ← get_player_stats_loop url headers 0 pids None;
  df_stats ← lift (local df_stats);
  lift (merge_left df_players df_stats "PERSON_ID" "PLAYER_ID").

(** Lines 81-84: fit one candidate and score it. *)
Definition evaluate (players_df : DataFrame) (columns : list string) (n : Z)
  : M World candidate :=
  X ← lift (getitem_cols players_df columns);
  cluster_labels ← kmeans_fit_predict n X;
  X ← lift (getitem_cols players_df columns);
  avg_silhouette ← lift (silhouette_score X cluster_labels);
  print (Score n avg_silhouette);;
  mret {| cand_n := n; cand_labels := cluster_labels; cand_score := avg_silhouette |}.

(** Lines 85-89: [if avg_silhouette > optimal_silhouette: ...] *)
Definition update (b : best) (c : candidate) : best :=
  if decide (optimal_silhouette b < cand_score c)%Qc
  then {| optimal_n := Some (cand_n c);
          optimal_clusters := Some (cand_labels c);
          optimal_clusterer := Some (cand_n c);
          optimal_silhouette := cand_score c |}
  else b.

Definition initial_best : best :=
  {| optimal_n := None;
     optimal_clusters := None;
     optimal_clusterer := None;
     optimal_silhouette := Q2Qc (-99) |}.

Fixpoint scan_loop (players_df : DataFrame) (columns : list string)
    (ns : list Z) (b : best) : M World best :=
  match ns with
  | [] => mret b
  | n :: rest =>
      c ← evaluate players_df columns n;
      scan_loop players_df columns rest (update b c)
  end.

(** Lines 76-90 of [cluster]. *)
Definition scan (players_df : DataFrame) (columns : list string) : M World best :=
  b ← scan_loop players_df columns (range 2 9) initial_best;
  print (Returning (optimal_n b));;
  mret b.

(** The [dict(...)] built for row [i]. *)
Definition member (players_df : DataFrame) (i : nat) : result player :=
  r ← iloc players_df i;
  pid ← row_getitem players_df r "PERSON_ID";
  r ← iloc players_df i;
  name ← row_getitem players_df r "DISPLAY_LAST_COMMA_FIRST";
  tokens ← str_split name;
  first ← getitem_last tokens;
  r ← iloc players_df i;
  name ← row_getitem players_df r "DISPLAY_LAST_COMMA_FIRST";
  tokens ← str_split name;
  last ← getitem_first tokens;
  Ok {| player_id := pid; first_name := first; last_name := last |}.

(** [{n: [] for n in range(optimal_n)}] *)
Definition empty_clusters (optimal_n : Z) : gmap Z (list player) :=
  list_to_map ((fun n => (n, [])) <$> range 0 optimal_n).

(** [for i, label in enumerate(optimal_clusters): clusters[label].append(...)] *)
Fixpoint report_loop (players_df : DataFrame) (i : nat) (labels : list Z)
    (clusters : gmap Z (list player)) : result (gmap Z (list player)) :=
  match labels with
  | [] => Ok clusters
  | label :: rest =>
      members ← dict_getitem clusters label;
      p ← member players_df i;
      report_loop players_df (S i) rest (<[label := members ++ [p]]> clusters)
  end.

(** Lines 91-100 of [cluster]; [range(None)] and [enumerate(None)] raise
    [TypeError]. *)
Definition report (players_df : DataFrame) (optimal_n : option Z)
    (optimal_clusters : option (list Z)) : result (gmap Z (list player)) :=
  n ← not_none optimal_n;
  labels ← not_none optimal_clusters;
  report_loop players_df 0 labels (empty_clusters n).

Definition cluster (players_df : DataFrame) (columns : list string)
  : M World (gmap Z (list player)) :=
  b ← scan players_df columns;
  lift (report players_df (optimal_n b) (optimal_clusters b)).

(** *** The specification's reading of the two loops

    "For each candidate [n], fit and score": the candidates in scan order. *)
Fixpoint candidates (players_df : DataFrame) (columns : list string) (ns : list Z)
  : M World (list candidate) :=
  match ns with
  | [] => mret []
  | n :: rest =>
      c ← evaluate players_df columns n;
      cs ← candidates players_df columns rest;
      mret (c :: cs)
  end.

(** "Call the Stat Fetcher once per row, in row order": the fetched tables
    in row order, with the progress line and the pause after each call. *)
Fixpoint fetch_each (url : string) (headers : list (string * string))
    (i : nat) (pids : list value) : M World (list DataFrame) :=
  match pids with
  | [] => mret []
  | pid :: rest =>
      t ← get_player_career_reg_season_stats pid url headers;
      print (Added i pid);;
      sleep 2;;
      ts ← fetch_each url headers (S i) rest;
      mret (t :: ts)
  end.

(** The best a candidate would set. *)
Definition best_of (c : candidate) : best :=
  {| optimal_n := Some (cand_n c);
     optimal_clusters := Some (cand_labels c);
     optimal_clusterer := Some (cand_n c);
     optimal_silhouette := cand_score c |}.

(** The members of the rows labelled [l], in row order. *)
Definition members_with (l : Z) (labels : list Z) (ps : list player) : list player :=
  snd <$> filter (fun lp => lp.1 = l) (zip labels ps).

(** A whitespace-free, non-empty string. *)
Definition is_token (t : string) : bool :=
  negb (String.eqb t EmptyString)
  && forallb (fun c => negb (isspace c)) (list_ascii_of_string t).

(** The row has an identifier and a display name with at least one token. *)
Definition has_identity (players_df : DataFrame) (r : list value) : Prop :=
  exists pid name,
    row_getitem players_df r "PERSON_ID" = Ok pid
    /\ row_getitem players_df r "DISPLAY_LAST_COMMA_FIRST" = Ok (VStr name)
    /\ split name <> [].

(** Every record of a result set has one cell per header. *)
Definition well_shaped (rs : result_set) : Prop :=
  Forall (fun r => length r = length (rs_headers rs)) (rs_rowSet rs).

(** The result set has the column [name], and [astype(int)] accepts it as
    the table holds it. *)
Definition coercible (rs : result_set) (name : string) : Prop :=
  exists j ints,
    list_find (fun c => c = name) (rs_headers rs) = Some (j, name)
    /\ astype_int (convert_column ((fun r => cell r j) <$> rs_rowSet rs)) = Ok ints.

(** The request the Stat Fetcher sends for a player. *)
Definition stat_request (url : string) (headers : list (string * string))
    (pid : value) : request :=
  {| req_url := UrlWithId url pid; req_headers := headers |}.


(** *** Cells and column types

    The cell [x] holds the value [v] as a column stores it: as it is, or
    an integer as the float of that integer. *)
Definition stored_as (v x : value) : Prop :=
  x = v \/ exists z, v = VInt z /\ x = VFloat (float_of_int z).

(** The roster row [r] has a row of statistics. *)
Definition has_stats (df_players df_stats : DataFrame) (r : list value) : Prop :=
  exists pid r',
    r' ∈ rows df_stats
    /\ row_getitem df_players r "PERSON_ID" = Ok pid
    /\ row_getitem df_stats r' "PLAYER_ID" = Ok pid.

Definition plain_cell (v : value) : bool :=
  match v with
  | VBool _ => false
  | VInt z => fits_int64 z
  | _ => true
  end.

Definition is_null (v : value) : bool :=
  match v with
  | VNone => true
  | _ => false
  end.

Definition column_at (j : nat) (t : DataFrame) : list value :=
  (fun r => cell r j) <$> rows t.

(** An int64 column, and a column without a value (no cell, or nulls
    alone), which pandas holds as an object column. *)
Definition int_column (col : list value) : bool :=
  match col with
  | [] => false
  | _ => forallb is_int64_cell col
  end.

Definition void_column (col : list value) : bool := forallb is_null col.

(** No cell of the tables is a boolean or an integer beyond 64 bits. *)
Definition plain_cells (ts : list DataFrame) : bool :=
  forallb (fun t => forallb (forallb plain_cell) (rows t)) ts.

(** The tables a run fetched are ones whose cells fix their column types,
    also after they are appended to one another: they have the same
    labels, none twice; no cell is a boolean or an integer beyond 64 bits;
    and apart from the column [key] no column is an int64 column in one
    table and without a value in another (appended, these give an object
    column of integers, which no longer is an int64 column). *)
Definition settled (key : string) (ts : list DataFrame) : bool :=
  match ts with
  | [] => true
  | t0 :: _ =>
      let cols := columns t0 in
      bool_decide (NoDup cols)
      && forallb (fun t => bool_decide (columns t = cols)) ts
      && plain_cells ts
      && forallb (fun j =>
                    bool_decide (cols !! j = Some key)
                    || negb (existsb (fun t => int_column (column_at j t)) ts
                             && existsb (fun t => void_column (column_at j t)) ts))
                 (seq 0 (length cols))
  end.

(** The column holds an integer beside a float or a null. *)
Definition mixes (col : list value) : bool :=
  existsb is_int64_cell col && existsb is_float_or_null col.

(** No column of the tables, taken together, holds an integer beside a
    float or a null. *)
Definition unmixed (n : nat) (ts : list DataFrame) : bool :=
  forallb (fun j => negb (mixes (concat (column_at j <$> ts)))) (seq 0 n).

(** *** Further readings used below

    [" ".join(ts)] *)
Fixpoint unwords (ts : list string) : string :=
  match ts with
  | [] => EmptyString
  | [t] => t
  | t :: ts' => t +:+ String " " (unwords ts')
  end.

(** What a run of the batch loop over [pids] leaves in the trace when every
    call returns: per row the request, the progress line numbered from [i],
    and the pause of two seconds. *)
Fixpoint batch_events (url : string) (headers : list (string * string))
    (i : nat) (pids : list value) : list event :=
  match pids with
  | [] => []
  | pid :: rest =>
      Requested (stat_request url headers pid)
      :: Printed (Added i pid)
      :: Slept 2
      :: batch_events url headers (S i) rest
  end.

(** The score line of a candidate. *)
Definition score_line (c : candidate) : event :=
  Printed (Score (cand_n c) (cand_score c)).

(** The number of members a report lists for the keys [0..n-1]. *)
Definition listed (clusters : gmap Z (list player)) (n : Z) : nat :=
  sum_list ((fun l => length (clusters !!! l)) <$> range 0 n).

(** ** Facts about the built-ins *)

Lemma string_append_cons (c : ascii) (s1 s2 : string) :
  String c s1 +:+ s2 = String c (s1 +:+ s2).
Proof. reflexivity. Qed.

Lemma string_append_empty_r (s : string) : s +:+ EmptyString = s.
Proof.
  induction s as [|c s IH]; [done|]. by rewrite string_append_cons, IH.
Qed.

Lemma string_append_assoc (s1 s2 s3 : string) :
  (s1 +:+ s2) +:+ s3 = s1 +:+ (s2 +:+ s3).
Proof.
  induction s1 as [|c s1 IH]; [done|]. by rewrite !string_append_cons, IH.
Qed.

(** Reading a whitespace-free string extends the current run by it. *)
Lemma split_from_token (t : string) : forall tok,
  forallb (fun c => negb (isspace c)) (list_ascii_of_string t) = true ->
  tok +:+ t <> EmptyString ->
  split_from tok t = [tok +:+ t].
Proof.
  induction t as [|c t IH]; intros tok Hsp Hne.
  - rewrite string_append_empty_r in Hne |- *. simpl. by case_decide.
  - simpl in Hsp. apply andb_prop in Hsp as [Hc Ht].
    apply negb_true_iff in Hc. simpl. rewrite Hc.
    rewrite IH; [|done|]; rewrite string_append_assoc; [done|].
    intros Hempty. destruct tok; discriminate Hempty.
Qed.

Lemma split_token (t : string) : is_token t = true -> split t = [t].
Proof.
  unfold is_token, split. intros [Hne Hsp]%andb_prop.
  apply split_from_token; [done|].
  change (EmptyString +:+ t) with t.
  intros ->. by rewrite String.eqb_refl in Hne.
Qed.

Lemma result_bind_Ok {A B} (a : A) (f : A -> result B) : Ok a ≫= f = f a.
Proof. reflexivity. Qed.

Lemma is_Ok_bind {A B} (r : result A) (f : A -> result B) (b : B) :
  r ≫= f = Ok b -> exists a, r = Ok a /\ f a = Ok b.
Proof. destruct r as [a|e]; simpl; [eauto | discriminate]. Qed.

(** ** Facts about the frames *)

Lemma column_index_app (cols extra : list string) (rs rs' : list (list value))
    (name : string) (j : nat) :
  column_index {| columns := cols; rows := rs |} name = Some j ->
  column_index {| columns := cols ++ extra; rows := rs' |} name = Some j.
Proof.
  unfold column_index; simpl.
  destruct (list_find _ cols) as [[j' c]|] eqn:Hf; simpl; [|discriminate].
  intros [= ->].
  apply list_find_Some in Hf as (Hj & Hc & Hbefore).
  erewrite (proj2 (list_find_Some _ _ _ _)); [done|].
  split_and!; [by apply lookup_app_l_Some | done |].
  intros i y Hi Hlt. apply (Hbefore i y); [|done].
  rewrite lookup_app_l in Hi; [done|].
  apply lookup_lt_Some in Hj. lia.
Qed.

(** Appending keeps the columns of the left frame where they are. *)
Lemma column_index_append (df other : DataFrame) (name : string) (j : nat) :
  column_index df name = Some j -> column_index (append df other) name = Some j.
Proof.
  intros Hj. unfold append. case_decide.
  - by destruct df.
  - destruct df as [cols rs]. simpl. by eapply column_index_app.
Qed.

Lemma column_index_fold_append (ts : list DataFrame) : forall (t : DataFrame) name j,
  column_index t name = Some j ->
  column_index (fold_left append ts t) name = Some j.
Proof.
  induction ts as [|t' ts IH]; intros t name j Hj; simpl; [done|].
  by apply IH, column_index_append.
Qed.

Lemma columns_setattr_col (df : DataFrame) (name : string) (col : list value) :
  columns (setattr_col df name col) = columns df.
Proof. unfold setattr_col. by destruct (column_index df name). Qed.

Lemma nrows_setattr_col (df : DataFrame) (name : string) (col : list value) :
  length col = nrows df -> nrows (setattr_col df name col) = nrows df.
Proof.
  unfold setattr_col, nrows. intros Hlen.
  destruct (column_index df name); simpl; [|done].
  rewrite length_zip_with. lia.
Qed.

Lemma max_list_const (n : nat) (l : list nat) :
  l <> [] -> Forall (fun k => k = n) l -> max_list l = n.
Proof.
  intros Hne Hall. induction Hall as [|k l -> Hl IH]; [done|]. simpl.
  destruct l as [|k' l]; simpl in *; [lia|].
  rewrite IH; [lia | done].
Qed.

Lemma pad_full (width : nat) (r : list value) :
  length r = width -> pad width r = r.
Proof.
  intros <-. unfold pad. rewrite Nat.sub_diag. simpl. apply app_nil_r.
Qed.

Lemma pad_all_full (width : nat) (data : list (list value)) :
  Forall (fun r => length r = width) data -> pad width <$> data = data.
Proof.
  induction 1 as [|r data Hr _ IH]; [done|].
  by rewrite fmap_cons, pad_full, IH.
Qed.

Lemma length_apply_mask (mask : list bool) (r : list value) :
  length (apply_mask mask r) = length r.
Proof. unfold apply_mask. apply length_imap. Qed.

Lemma cell_apply_mask (mask : list bool) (r : list value) (j : nat) :
  cell (apply_mask mask r) j
  = if default false (mask !! j) then as_float (cell r j) else cell r j.
Proof.
  unfold cell, apply_mask. rewrite list_lookup_imap.
  destruct (r !! j) as [v|]; simpl; [done|]. by destruct (default false (mask !! j)).
Qed.

Lemma nrows_convert_rows (n : nat) (rs : list (list value)) :
  length (convert_rows n rs) = length rs.
Proof. unfold convert_rows. by rewrite length_fmap. Qed.

(** A column of converted rows is the column, converted. *)
Lemma column_convert_rows (n j : nat) (rs : list (list value)) :
  (j < n)%nat ->
  (fun r => cell r j) <$> convert_rows n rs
  = convert_column ((fun r => cell r j) <$> rs).
Proof.
  intros Hj. unfold convert_rows, convert_column.
  rewrite <-list_fmap_compose.
  set (mask := (fun j => needs_float ((fun r => cell r j) <$> rs)) <$> seq 0 n).
  assert (mask !! j = Some (needs_float ((fun r => cell r j) <$> rs))) as Hmask.
  { unfold mask. rewrite list_lookup_fmap, lookup_seq_lt by done. done. }
  destruct (needs_float ((fun r => cell r j) <$> rs)) eqn:Hneeds.
  - rewrite <-list_fmap_compose. apply list_fmap_ext. intros i r _. simpl.
    by rewrite cell_apply_mask, Hmask.
  - apply list_fmap_ext. intros i r _. simpl.
    by rewrite cell_apply_mask, Hmask.
Qed.

(** On records that all have one cell per label, [from_records] keeps the
    labels; with at least one label it keeps the records, each column
    with its type. *)
Lemma from_records_well_shaped (data : list (list value)) (cols : list string) :
  Forall (fun r => length r = length cols) data ->
  exists df, from_records data cols = Ok df
    /\ columns df = cols
    /\ (cols <> [] -> rows df = convert_rows (length cols) data).
Proof.
  intros Hall. destruct data as [|r data]; simpl.
  { eexists; split_and!; done. }
  assert (max_list (length <$> r :: data) = length cols) as Hmax.
  { apply max_list_const; [done|]. by apply Forall_fmap. }
  simpl in Hmax. rewrite Hmax.
  rewrite decide_True by done.
  eexists; split_and!; [done..|]. simpl. intros Hne.
  rewrite decide_False by (by destruct cols).
  f_equal. by apply (pad_all_full (length cols) (r :: data)).
Qed.

(** ** The scan over the cluster counts *)

(** The silhouette coefficient of a partition lies in [-1, 1]; the scan
    relies on its lower bound. *)
Hypothesis silhouette_score_lower_bound : forall X labels q,
  silhouette_score X labels = Ok q -> (Q2Qc (-1) <= q)%Qc.

Ltac run_bind :=
  unfold mbind, M_bind, mret, M_ret, lift, print, sleep, emit; simpl.

Lemma scan_loop_candidates players_df columns ns : forall b s,
  scan_loop players_df columns ns b s
  = (cs ← candidates players_df columns ns; mret (fold_left update cs b)) s.
Proof.
  induction ns as [|n ns IH]; intros b s; [reflexivity|].
  simpl. unfold mbind, M_bind, mret, M_ret.
  destruct (evaluate players_df columns n s) as [[c|e] s1]; [|done].
  rewrite IH. unfold mbind, M_bind, mret, M_ret.
  by destruct (candidates players_df columns ns s1) as [[cs|e] s2].
Qed.

Lemma evaluate_Ok players_df columns n s c s' :
  evaluate players_df columns n s = (Ok c, s') ->
  cand_n c = n
  /\ exists X, silhouette_score X (cand_labels c) = Ok (cand_score c).
Proof.
  unfold evaluate, kmeans_fit_predict. run_bind.
  destruct (getitem_cols players_df columns) as [X|e]; [|done].
  destruct (fit_predict n X (world s)) as [[labels|e] w]; [|done].
  destruct (silhouette_score X labels) as [q|e] eqn:Hq; [|done].
  intros [= <- <-]. simpl. eauto.
Qed.

Lemma candidates_Ok players_df columns ns : forall s cs s',
  candidates players_df columns ns s = (Ok cs, s') ->
  cand_n <$> cs = ns
  /\ Forall (fun c => (Q2Qc (-1) <= cand_score c)%Qc) cs.
Proof.
  induction ns as [|n ns IH]; intros s cs s'; simpl.
  { unfold mret, M_ret. by intros [= <- <-]. }
  unfold mbind, M_bind, mret, M_ret.
  destruct (evaluate players_df columns n s) as [[c|e] s1] eqn:Hc; [|done].
  destruct (candidates players_df columns ns s1) as [[cs1|e] s2] eqn:Hcs; [|done].
  intros [= <- <-].
  apply evaluate_Ok in Hc as [Hn [X HX]].
  apply IH in Hcs as [Hns Hall].
  split; [by rewrite fmap_cons, Hn, Hns|].
  constructor; [by eapply silhouette_score_lower_bound | done].
Qed.

Lemma update_unfold (b : best) (c : candidate) :
  update b c
  = if decide (optimal_silhouette b < cand_score c)%Qc then best_of c else b.
Proof. reflexivity. Qed.

(** The running best after a run of updates: either no candidate beat the
    best the run started from, or the best is the first candidate among
    those with the highest score. *)
Lemma fold_update_first_maximal (cs : list candidate) : forall b,
  let b' := fold_left update cs b in
  (b' = b /\ Forall (fun c => (cand_score c <= optimal_silhouette b)%Qc) cs)
  \/ (exists j c, cs !! j = Some c
        /\ b' = best_of c
        /\ (optimal_silhouette b < cand_score c)%Qc
        /\ Forall (fun c' => (cand_score c' <= cand_score c)%Qc) cs
        /\ (forall i c', (i < j)%nat -> cs !! i = Some c' ->
              (cand_score c' < cand_score c)%Qc)).
Proof.
  induction cs as [|c cs IH]; intros b; simpl.
  { left. by split. }
  rewrite update_unfold. case_decide as Hlt.
  - right. destruct (IH (best_of c)) as [[Heq Hall]|(j & c' & Hj & Heq & Hgt & Hall & Hfirst)].
    + simpl in Hall. exists 0%nat, c. split_and!; [done..| |].
      * constructor; [apply Qcle_refl | done].
      * intros i c' Hi. lia.
    + simpl in Hgt. exists (S j), c'. split_and!; [done..| | |].
      * by eapply Qclt_trans.
      * constructor; [by apply Qclt_le_weak | done].
      * intros [|i] c'' Hi Hc''; simpl in Hc''.
        -- by injection Hc'' as <-.
        -- apply (Hfirst i); [lia | done].
  - apply Qcnot_lt_le in Hlt.
    destruct (IH b) as [[Heq Hall]|(j & c' & Hj & Heq & Hgt & Hall & Hfirst)].
    + left. split; [done|]. by constructor.
    + right. exists (S j), c'. split_and!; [done..| |].
      * constructor; [|done]. apply Qclt_le_weak. by eapply Qcle_lt_trans.
      * intros [|i] c'' Hi Hc''; simpl in Hc''.
        -- injection Hc'' as <-. by eapply Qcle_lt_trans.
        -- apply (Hfirst i); [lia | done].
Qed.

Lemma initial_below_silhouette (q : Qc) :
  (Q2Qc (-1) <= q)%Qc -> (optimal_silhouette initial_best < q)%Qc.
Proof. intros Hq. eapply Qclt_le_trans; [|exact Hq]. done. Qed.

(** From a scan that starts at [initial_best], over at least one candidate
    with silhouette scores: the best is the first maximal candidate. *)
Lemma fold_update_initial (cs : list candidate) :
  cs <> [] ->
  Forall (fun c => (Q2Qc (-1) <= cand_score c)%Qc) cs ->
  exists j c, cs !! j = Some c
    /\ fold_left update cs initial_best = best_of c
    /\ Forall (fun c' => (cand_score c' <= cand_score c)%Qc) cs
    /\ (forall i c', (i < j)%nat -> cs !! i = Some c' ->
          (cand_score c' < cand_score c)%Qc).
Proof.
  intros Hne Hbound.
  destruct (fold_update_first_maximal cs initial_best)
    as [[_ Hall]|(j & c & Hj & Heq & _ & Hall & Hfirst)].
  - destruct cs as [|c cs]; [done|].
    inversion_clear Hall as [|? ? Hc _]. inversion_clear Hbound as [|? ? Hc' _].
    apply initial_below_silhouette in Hc'.
    by apply Qcle_not_lt in Hc.
  - exists j, c. by split_and!.
Qed.

Lemma range_2_9 : range 2 9 = [2; 3; 4; 5; 6; 7; 8].
Proof. reflexivity. Qed.

Lemma scan_candidates players_df columns s cs s' :
  candidates players_df columns (range 2 9) s = (Ok cs, s') ->
  scan players_df columns s
  = (Ok (fold_left update cs initial_best),
     {| world := world s';
        trace := trace s'
                 ++ [Printed (Returning (optimal_n (fold_left update cs initial_best)))] |}).
Proof.
  intros Hcs. unfold scan.
  unfold mbind at 1. unfold M_bind at 1.
  rewrite scan_loop_candidates.
  unfold mbind at 1. unfold M_bind at 1. rewrite Hcs.
  reflexivity.
Qed.

Lemma scan_Ok_candidates players_df columns s b s' :
  scan players_df columns s = (Ok b, s') ->
  exists cs s1,
    candidates players_df columns (range 2 9) s = (Ok cs, s1)
    /\ b = fold_left update cs initial_best.
Proof.
  unfold scan.
  unfold mbind at 1. unfold M_bind at 1.
  rewrite scan_loop_candidates.
  unfold mbind at 1. unfold M_bind at 1.
  destruct (candidates players_df columns (range 2 9) s) as [[cs|e] s1]; [|done].
  run_bind. intros [= <- <-]. eauto.
Qed.

Lemma candidate_count (cs : list candidate) (i : nat) (c : candidate) :
  cand_n <$> cs = [2; 3; 4; 5; 6; 7; 8] ->
  cs !! i = Some c ->
  cand_n c = 2 + Z.of_nat i.
Proof.
  intros Hns Hi.
  assert ((cand_n <$> cs) !! i = Some (cand_n c)) as Hn.
  { by rewrite list_lookup_fmap, Hi. }
  rewrite Hns in Hn.
  do 7 (destruct i as [|i]; [by injection Hn as <-|]).
  discriminate Hn.
Qed.

(** C1.  When every candidate fit and score succeeds, the candidates are
    those of n = 2, 3, ..., 8 in this order, and the scan keeps the first
    candidate whose silhouette score is maximal: no candidate scores
    higher, every earlier candidate scores strictly lower, so among equal
    scores the lowest n is kept.  [cluster] reports the labels of that
    candidate. *)
Theorem scan_keeps_first_maximal players_df columns s cs s' :
  candidates players_df columns (range 2 9) s = (Ok cs, s') ->
  cand_n <$> cs = [2; 3; 4; 5; 6; 7; 8]
  /\ exists j c,
      cs !! j = Some c
      /\ Forall (fun c' => (cand_score c' <= cand_score c)%Qc) cs
      /\ (forall i c', (i < j)%nat -> cs !! i = Some c' ->
            (cand_score c' < cand_score c)%Qc)
      /\ (forall c', c' ∈ cs -> cand_score c' = cand_score c ->
            cand_n c <= cand_n c')
      /\ let s_end := {| world := world s';
                         trace := trace s' ++ [Printed (Returning (Some (cand_n c)))] |} in
         scan players_df columns s = (Ok (best_of c), s_end)
         /\ cluster players_df columns s
            = (report players_df (Some (cand_n c)) (Some (cand_labels c)), s_end).
Proof.
  intros Hcs.
  destruct (candidates_Ok _ _ _ _ _ _ Hcs) as [Hns Hbound].
  rewrite range_2_9 in Hns. split; [done|].
  destruct (fold_update_initial cs) as (j & c & Hj & Hbest & Hmax & Hfirst);
    [by destruct cs | done |].
  exists j, c. split_and!; [done..| |].
  { intros c' [i Hi]%list_elem_of_lookup_1 Heq.
    rewrite (candidate_count cs j c), (candidate_count cs i c') by done.
    destruct (decide (i < j)%nat) as [Hlt|Hge]; [|lia].
    specialize (Hfirst i c' Hlt Hi). rewrite Heq in Hfirst.
    by apply Qclt_not_eq in Hfirst. }
  pose proof (scan_candidates _ _ _ _ _ Hcs) as Hscan.
  rewrite Hbest in Hscan. simpl in Hscan. simpl.
  split; [done|].
  unfold cluster. unfold mbind at 1. unfold M_bind at 1.
  by rewrite Hscan.
Qed.

(** C3.  Whenever the scan completes it has selected a cluster count, and
    that count lies in 2..8. *)
Theorem scan_selects_count_in_range players_df columns s b s' :
  scan players_df columns s = (Ok b, s') ->
  exists n, optimal_n b = Some n /\ 2 <= n <= 8.
Proof.
  intros (cs & s1 & Hcs & ->)%scan_Ok_candidates.
  destruct (candidates_Ok _ _ _ _ _ _ Hcs) as [Hns Hbound].
  rewrite range_2_9 in Hns.
  destruct (fold_update_initial cs) as (j & c & Hj & -> & _);
    [by destruct cs | done |].
  exists (cand_n c). split; [done|].
  assert (cand_n c ∈ cand_n <$> cs) as Hin.
  { apply list_elem_of_fmap. exists c. split; [done|].
    by eapply list_elem_of_lookup_2. }
  rewrite Hns in Hin.
  repeat (apply elem_of_cons in Hin as [->|Hin]; [lia|]).
  by apply elem_of_nil in Hin.
Qed.

(** ** The cluster report *)

Lemma member_row players_df i r pid name :
  rows players_df !! i = Some r ->
  row_getitem players_df r "PERSON_ID" = Ok pid ->
  row_getitem players_df r "DISPLAY_LAST_COMMA_FIRST" = Ok (VStr name) ->
  member players_df i
  = (first ← getitem_last (split name);
     last ← getitem_first (split name);
     Ok {| player_id := pid; first_name := first; last_name := last |}).
Proof.
  intros Hr Hpid Hname. unfold member, iloc. rewrite Hr.
  rewrite !result_bind_Ok, Hpid, !result_bind_Ok, Hname, !result_bind_Ok.
  unfold str_split. rewrite !result_bind_Ok.
  destruct (getitem_last (split name)); [|done].
  by rewrite !result_bind_Ok, Hname, !result_bind_Ok.
Qed.

Lemma member_has_identity players_df i r :
  rows players_df !! i = Some r ->
  has_identity players_df r ->
  exists p, member players_df i = Ok p.
Proof.
  intros Hr (pid & name & Hpid & Hname & Htok).
  rewrite (member_row _ _ _ _ _ Hr Hpid Hname).
  unfold getitem_last, getitem_first.
  destruct (split name) as [|t ts] eqn:Hsplit; [done|].
  destruct (last (t :: ts)) as [t'|] eqn:Hlast.
  - simpl. eauto.
  - by apply last_None in Hlast.
Qed.

Lemma members_exist players_df :
  Forall (has_identity players_df) (rows players_df) ->
  exists ps, Forall2 (fun i p => member players_df i = Ok p)
               (seq 0 (nrows players_df)) ps.
Proof.
  intros Hall.
  assert (forall i, i ∈ seq 0 (nrows players_df) ->
            exists p, member players_df i = Ok p) as Hmem.
  { intros i [_ Hi]%elem_of_seq. unfold nrows in Hi. simpl in Hi.
    destruct (lookup_lt_is_Some_2 (rows players_df) i Hi) as [r Hr].
    eapply member_has_identity; [done|].
    eapply Forall_forall; [exact Hall|]. by eapply list_elem_of_lookup_2. }
  clear Hall. induction (seq 0 (nrows players_df)) as [|i l IH].
  { exists []. constructor. }
  destruct (Hmem i) as [p Hp]; [left|].
  destruct IH as [ps Hps]; [intros; apply Hmem; by right|].
  exists (p :: ps). by constructor.
Qed.

Lemma members_with_cons l label labels p ps :
  members_with l (label :: labels) (p :: ps)
  = if decide (label = l) then p :: members_with l labels ps
    else members_with l labels ps.
Proof.
  unfold members_with. simpl. rewrite filter_cons. simpl.
  by case_decide.
Qed.

(** The loop appends to the list of each label the members of the rows
    that carry it, in row order. *)
Lemma report_loop_spec players_df labels : forall i clusters ps,
  Forall2 (fun k p => member players_df k = Ok p) (seq i (length labels)) ps ->
  Forall (fun l => is_Some (clusters !! l)) labels ->
  exists out,
    report_loop players_df i labels clusters = Ok out
    /\ forall l, out !! l
         = (fun old => old ++ members_with l labels ps) <$> clusters !! l.
Proof.
  induction labels as [|label rest IH]; intros i clusters ps Hps Hkeys; simpl in *.
  { exists clusters. split; [done|]. intros l.
    destruct (clusters !! l); simpl; [|done]. unfold members_with.
    by rewrite app_nil_r. }
  inversion Hps as [|? p ? ps' Hp Hps']; subst.
  inversion_clear Hkeys as [|? ? [m Hm] Hrest].
  unfold dict_getitem. rewrite Hm. simpl. rewrite Hp. simpl.
  destruct (IH (S i) (<[label := m ++ [p]]> clusters) ps') as (out & Hout & Hlook);
    [done| |].
  { eapply Forall_impl; [exact Hrest|]. intros l Hl. simpl in Hl.
    rewrite lookup_insert. case_decide; [done|]. done. }
  exists out. split; [done|]. intros l. rewrite Hlook.
  rewrite members_with_cons, lookup_insert.
  case_decide as Heq; [subst|done].
  rewrite Hm. simpl. by rewrite <-app_assoc.
Qed.

Lemma lookup_empty_clusters (k l : Z) :
  empty_clusters k !! l = if decide (0 <= l < k) then Some [] else None.
Proof.
  unfold empty_clusters, range. case_decide as Hl.
  - apply elem_of_list_to_map_1.
    + rewrite <-list_fmap_compose. simpl. rewrite list_fmap_id. apply NoDup_seqZ.
    + apply list_elem_of_fmap. exists l. split; [done|].
      apply elem_of_seqZ. lia.
  - apply not_elem_of_list_to_map_1.
    rewrite <-list_fmap_compose. simpl. rewrite list_fmap_id.
    rewrite elem_of_seqZ. lia.
Qed.

Lemma sum_list_fmap_add {A} (f g : A -> nat) (l : list A) :
  sum_list ((fun x => f x + g x)%nat <$> l)
  = (sum_list (f <$> l) + sum_list (g <$> l))%nat.
Proof. induction l as [|x l IH]; csimpl; [done|]. rewrite IH. lia. Qed.

Lemma sum_list_indicator (label : Z) (keys : list Z) :
  NoDup keys -> label ∈ keys ->
  sum_list ((fun l => if decide (label = l) then 1 else 0)%nat <$> keys) = 1%nat.
Proof.
  induction 1 as [|k keys Hk Hnd IH]; intros Hin; [by apply elem_of_nil in Hin|].
  csimpl. apply elem_of_cons in Hin as [->|Hin].
  - rewrite decide_True by done.
    assert (sum_list ((fun l => if decide (k = l) then 1 else 0)%nat <$> keys) = 0%nat)
      as ->; [|done].
    clear IH Hnd. induction keys as [|k' keys IH]; csimpl; [done|].
    apply not_elem_of_cons in Hk as [Hne Hk].
    rewrite decide_False by done. by rewrite IH.
  - rewrite decide_False by (intros ->; done). by rewrite IH.
Qed.

(** Over keys that cover the labels, the lists of the labels have as many
    members as there are rows. *)
Lemma members_with_total (keys : list Z) : NoDup keys -> forall labels ps,
  length ps = length labels ->
  Forall (fun l => l ∈ keys) labels ->
  sum_list ((fun l => length (members_with l labels ps)) <$> keys) = length labels.
Proof.
  intros Hnd labels. induction labels as [|label rest IH]; intros ps Hlen Hin.
  { simpl. clear. induction keys as [|k keys IH]; csimpl; [done|].
    by rewrite IH. }
  destruct ps as [|p ps]; [done|]. simpl in Hlen.
  inversion_clear Hin as [|? ? Hlabel Hrest].
  erewrite list_fmap_ext with
    (g := fun l => ((if decide (label = l) then 1 else 0)
                    + length (members_with l rest ps))%nat).
  2:{ intros i l _. rewrite members_with_cons. by case_decide. }
  rewrite sum_list_fmap_add, sum_list_indicator by done.
  rewrite IH by (done || lia). done.
Qed.

(** C4.  For a cluster count [k] and one label in 0..k-1 per row, the
    report has exactly the keys 0..k-1; the list of a key holds the members
    of the rows labelled with it, one entry per row and in row order; and
    the lists together have as many entries as the table has rows. *)
Theorem report_partitions_rows players_df k labels :
  length labels = nrows players_df ->
  Forall (fun l => 0 <= l < k) labels ->
  Forall (has_identity players_df) (rows players_df) ->
  exists clusters ps,
    report players_df (Some k) (Some labels) = Ok clusters
    /\ Forall2 (fun i p => member players_df i = Ok p) (seq 0 (nrows players_df)) ps
    /\ (dom clusters : gset Z) = list_to_set (range 0 k)
    /\ (forall l, 0 <= l < k -> clusters !! l = Some (members_with l labels ps))
    /\ sum_list ((fun l => length (clusters !!! l)) <$> range 0 k)
       = nrows players_df.
Proof.
  intros Hlen Hrange Hnames.
  destruct (members_exist players_df Hnames) as [ps Hps].
  destruct (report_loop_spec players_df labels 0 (empty_clusters k) ps)
    as (out & Hout & Hlook).
  { by rewrite Hlen. }
  { eapply Forall_impl; [exact Hrange|]. intros l Hl. simpl in Hl.
    rewrite lookup_empty_clusters, decide_True by done. by eexists. }
  assert (forall l, out !! l
            = if decide (0 <= l < k) then Some (members_with l labels ps) else None)
    as Hout_l.
  { intros l. rewrite Hlook, lookup_empty_clusters. by case_decide. }
  exists out, ps. split_and!; [done..| | |].
  - apply set_eq. intros l.
    rewrite elem_of_dom, Hout_l, elem_of_list_to_set. unfold range.
    rewrite elem_of_seqZ. case_decide.
    + split; [lia | by eexists].
    + split; [by intros [? ?] | lia].
  - intros l Hl. by rewrite Hout_l, decide_True.
  - erewrite list_fmap_ext with
      (g := fun l => length (members_with l labels ps)).
    2:{ intros i l Hil. apply list_elem_of_lookup_2 in Hil.
        unfold range in Hil. apply elem_of_seqZ in Hil.
        by rewrite lookup_total_alt, Hout_l, decide_True by lia. }
    rewrite members_with_total; [done | apply NoDup_seqZ | |].
    + apply Forall2_length in Hps. rewrite length_seq in Hps. lia.
    + eapply Forall_impl; [exact Hrange|]. intros l Hl. simpl in Hl.
      apply elem_of_seqZ. lia.
Qed.

(** C9.  A display name that is one token, such as "Smith", does not make
    the split fail: the member is built, and its first and last name are
    both that token. *)
Theorem single_token_name_is_duplicated players_df i r pid t :
  rows players_df !! i = Some r ->
  row_getitem players_df r "PERSON_ID" = Ok pid ->
  row_getitem players_df r "DISPLAY_LAST_COMMA_FIRST" = Ok (VStr t) ->
  is_token t = true ->
  member players_df i
  = Ok {| player_id := pid; first_name := t; last_name := t |}.
Proof.
  intros Hr Hpid Hname Htok.
  rewrite (member_row _ _ _ _ _ Hr Hpid Hname).
  by rewrite (split_token t Htok).
Qed.

(** ** The fetchers and the batch loop *)

Lemma column_index_columns (df df' : DataFrame) (name : string) :
  columns df' = columns df -> column_index df' name = column_index df name.
Proof. unfold column_index. by intros ->. Qed.

Lemma coerce_column_columns df name t :
  coerce_column df name = Ok t ->
  columns t = columns df /\ is_Some (column_index t name).
Proof.
  unfold coerce_column, getattr_col.
  destruct (column_index df name) as [j|] eqn:Hj; [|done].
  rewrite result_bind_Ok.
  destruct (astype_int _) as [ints|e]; [|done].
  rewrite result_bind_Ok. intros [= <-]. split.
  - apply columns_setattr_col.
  - rewrite (column_index_columns df) by apply columns_setattr_col.
    by rewrite Hj.
Qed.

(** A call of the Stat Fetcher sends exactly one request, the one for its
    player, whether it returns or raises; a table it returns has the
    column [PLAYER_ID]. *)
Lemma stats_call pid url headers s r s' :
  get_player_career_reg_season_stats pid url headers s = (r, s') ->
  trace s' = trace s ++ [Requested (stat_request url headers pid)]
  /\ forall t, r = Ok t -> is_Some (column_index t "PLAYER_ID").
Proof.
  unfold get_player_career_reg_season_stats, http_get. run_bind.
  fold (stat_request url headers pid).
  destruct (requests_get _ (world s)) as [[doc|e] w]; simpl.
  2:{ by intros [= <- <-]. }
  destruct (getitem (resultSets doc) 1) as [rs|e]; simpl.
  2:{ by intros [= <- <-]. }
  destruct (from_records _ _) as [df|e]; simpl.
  2:{ by intros [= <- <-]. }
  intros [= <- <-]. split; [done|].
  intros t Ht. by apply coerce_column_columns in Ht as [_ Hcol].
Qed.

Lemma requests_of_snoc_request (tr : list event) (r : request) :
  requests_of (tr ++ [Requested r]) = requests_of tr ++ [r].
Proof. unfold requests_of. by rewrite omap_app. Qed.

Lemma requests_of_snoc_printed (tr : list event) (m : message) :
  requests_of (tr ++ [Printed m]) = requests_of tr.
Proof. unfold requests_of. rewrite omap_app. simpl. apply app_nil_r. Qed.

Lemma requests_of_snoc_slept (tr : list event) (n : Z) :
  requests_of (tr ++ [Slept n]) = requests_of tr.
Proof. unfold requests_of. rewrite omap_app. simpl. apply app_nil_r. Qed.

(** Fetching each player in turn, when every call returns: one table and
    one request per player, the requests in row order. *)
Lemma fetch_each_Ok url headers pids : forall i s ts s',
  fetch_each url headers i pids s = (Ok ts, s') ->
  length ts = length pids
  /\ requests_of (trace s')
     = requests_of (trace s) ++ (stat_request url headers <$> pids)
  /\ Forall (fun t => is_Some (column_index t "PLAYER_ID")) ts.
Proof.
  induction pids as [|pid rest IH]; intros i s ts s'; simpl.
  { unfold mret, M_ret. intros [= <- <-]. by rewrite app_nil_r. }
  run_bind.
  destruct (get_player_career_reg_season_stats pid url headers s)
    as [[t|e] s1] eqn:Hcall; [|done].
  apply stats_call in Hcall as [Htrace Hcol].
  destruct (fetch_each url headers (S i) rest _) as [[ts'|e] s2] eqn:Hrest; [|done].
  intros [= <- <-].
  apply IH in Hrest as (Hlen & Hreq & Hall). simpl in Hreq.
  split_and!.
  - simpl. by rewrite Hlen.
  - rewrite Hreq, requests_of_snoc_slept, requests_of_snoc_printed, Htrace,
      requests_of_snoc_request.
    by rewrite <-app_assoc.
  - constructor; [by apply Hcol | done].
Qed.

(** The first failing call ends the run with its exception and in its
    state: the players before it were requested once each, in row order,
    then the failing one, and nothing after it. *)
Lemma fetch_each_raise url headers pre pid post e : forall i s ts s1 s2,
  fetch_each url headers i pre s = (Ok ts, s1) ->
  get_player_career_reg_season_stats pid url headers s1 = (Raise e, s2) ->
  fetch_each url headers i (pre ++ pid :: post) s = (Raise e, s2)
  /\ requests_of (trace s2)
     = requests_of (trace s) ++ (stat_request url headers <$> pre ++ [pid]).
Proof.
  induction pre as [|pid' pre IH]; intros i s ts s1 s2; simpl.
  { unfold mret, M_ret. intros [= <- <-] Hfail. run_bind. rewrite Hfail.
    split; [done|].
    apply stats_call in Hfail as [-> _]. apply requests_of_snoc_request. }
  run_bind.
  destruct (get_player_career_reg_season_stats pid' url headers s)
    as [[t|e'] s'] eqn:Hcall; [|done].
  apply stats_call in Hcall as [Htrace _].
  destruct (fetch_each url headers (S i) pre _) as [[ts'|e'] s''] eqn:Hpre; [|done].
  intros [= <- <-] Hfail.
  destruct (IH _ _ _ _ _ Hpre Hfail) as [-> Hreq]. split; [done|].
  rewrite Hreq. simpl.
  rewrite requests_of_snoc_slept, requests_of_snoc_printed, Htrace,
    requests_of_snoc_request.
  by rewrite <-app_assoc.
Qed.

(** Once [df_stats] is bound, the loop appends the fetched tables to it. *)
Lemma loop_fetch_each_bound url headers pids : forall i acc s,
  i <> 0%nat ->
  get_player_stats_loop url headers i pids (Some acc) s
  = (ts ← fetch_each url headers i pids; mret (Some (fold_left append ts acc))) s.
Proof.
  induction pids as [|pid rest IH]; intros i acc s Hi; [reflexivity|].
  simpl. rewrite decide_False by done. run_bind.
  destruct (get_player_career_reg_season_stats pid url headers s)
    as [[t|e] s1]; [|done].
  rewrite IH by done. run_bind.
  by destruct (fetch_each url headers (S i) rest _) as [[ts|e] s2].
Qed.

(** The loop as a whole: the first table, with the later ones appended in
    row order; unbound when there is no row. *)
Lemma loop_fetch_each url headers pids s :
  get_player_stats_loop url headers 0 pids None s
  = (ts ← fetch_each url headers 0 pids;
     mret (match ts with
           | [] => None
           | t :: ts' => Some (fold_left append ts' t)
           end)) s.
Proof.
  destruct pids as [|pid rest]; [reflexivity|].
  simpl. run_bind.
  destruct (get_player_career_reg_season_stats pid url headers s)
    as [[t|e] s1]; [|done].
  rewrite loop_fetch_each_bound by done. run_bind.
  by destruct (fetch_each url headers 1 rest _) as [[ts|e] s2].
Qed.


(** ** Columns of integers through [append] and [merge] *)

Lemma key_eq_int (z z' : Z) : key_eq (VInt z) (VInt z') = true <-> z = z'.
Proof.
  unfold key_eq. simpl. rewrite bool_decide_eq_true, Q2Qc_eq_iff.
  apply inject_Z_injective.
Qed.

Lemma is_int64_cell_VInt (v : value) :
  is_int64_cell v = true -> exists z, v = VInt z.
Proof. destruct v; try done. eauto. Qed.

Lemma convert_column_ints (col : list value) :
  Forall (fun v => is_int64_cell v = true) col -> convert_column col = col.
Proof.
  intros Hall. unfold convert_column, needs_float.
  assert (existsb is_float_or_null col = false) as ->.
  { induction Hall as [|v col Hv _ IH]; [done|]. simpl. rewrite IH.
    by destruct v. }
  by rewrite andb_false_r.
Qed.

Lemma apply_mask_nil (r : list value) : apply_mask [] r = r.
Proof.
  unfold apply_mask. apply list_eq. intros j. rewrite list_lookup_imap.
  by destruct (r !! j).
Qed.

Lemma stored_as_as_float (v : value) : stored_as v (as_float v).
Proof. destruct v; try (by left). right. eauto. Qed.

Lemma apply_mask_stored (mask : list bool) (r : list value) :
  Forall2 stored_as r (apply_mask mask r).
Proof.
  apply Forall2_same_length_lookup. split.
  { by rewrite length_apply_mask. }
  intros j v x Hv. unfold apply_mask. rewrite list_lookup_imap, Hv. simpl.
  intros [= <-]. destruct (default false (mask !! j)).
  - apply stored_as_as_float.
  - by left.
Qed.

Lemma column_index_lt (df : DataFrame) (name : string) (j : nat) :
  column_index df name = Some j -> (j < length (columns df))%nat.
Proof.
  unfold column_index.
  destruct (list_find _ (columns df)) as [[j' c]|] eqn:Hfind; [|done].
  intros [= <-]. apply list_find_Some in Hfind as (Hj & _).
  by eapply lookup_lt_Some.
Qed.

Lemma append_same_columns (a b : DataFrame) :
  columns a = columns b ->
  append a b
  = {| columns := columns a;
       rows := convert_rows (length (columns a)) (rows a ++ rows b) |}.
Proof. intros Hab. unfold append. by rewrite decide_True. Qed.

(** Appending tables with the same labels keeps a column of integers as
    it is. *)
Lemma fold_append_key (cols : list string) (rk : nat) (ts : list DataFrame) :
  forall t,
  (rk < length cols)%nat ->
  Forall (fun t' => columns t' = cols) (t :: ts) ->
  Forall (fun t' => Forall (fun v => is_int64_cell v = true) (column_at rk t'))
         (t :: ts) ->
  columns (fold_left append ts t) = cols
  /\ Forall (fun v => is_int64_cell v = true)
            (column_at rk (fold_left append ts t)).
Proof.
  induction ts as [|t' ts IH]; intros t Hrk Hcols Hint.
  { by inversion_clear Hcols; inversion_clear Hint. }
  inversion_clear Hcols as [|? ? Ht Hcols'].
  inversion_clear Hcols' as [|? ? Ht' Hts].
  inversion_clear Hint as [|? ? Hi Hint'].
  inversion_clear Hint' as [|? ? Hi' Hits].
  simpl. apply IH; [done| |].
  - constructor; [|done]. rewrite append_same_columns by congruence. done.
  - constructor; [|done]. rewrite append_same_columns by congruence.
    unfold column_at. simpl. rewrite Ht.
    rewrite column_convert_rows by done.
    rewrite fmap_app, convert_column_ints; apply Forall_app; by split.
Qed.

Lemma pad_length (width : nat) (r : list value) :
  (length r <= width)%nat -> length (pad width r) = width.
Proof. intros Hr. unfold pad. rewrite length_app, length_replicate. lia. Qed.

Lemma convert_pad_lengths (data : list (list value)) :
  let width := max_list (length <$> data) in
  Forall (fun r => length r = width) (convert_rows width (pad width <$> data)).
Proof.
  intros width. unfold convert_rows. rewrite !Forall_fmap.
  apply Forall_forall. intros r Hr. unfold compose.
  rewrite length_apply_mask, pad_length; [done|].
  apply max_list_elem_of_le, list_elem_of_fmap. eauto.
Qed.

(** A frame built from records has one cell per label in every row. *)
Lemma from_records_lengths (data : list (list value)) (cols : list string)
    (df : DataFrame) :
  from_records data cols = Ok df ->
  columns df = cols /\ Forall (fun r => length r = length cols) (rows df).
Proof.
  unfold from_records. destruct data as [|r0 data].
  { by intros [= <-]. }
  destruct (decide (max_list (length <$> r0 :: data) = length cols)) as [Hw|];
    [|done].
  intros [= <-]. cbn [rows columns]. split; [done|].
  destruct (decide _); [done|].
  rewrite <-Hw. apply (convert_pad_lengths (r0 :: data)).
Qed.

Lemma cell_after_insert (j : nat) (rs : list (list value)) : forall vals,
  Forall (fun r => (j < length r)%nat) rs ->
  Forall (fun v => v ∈ vals)
         ((fun r => cell r j) <$> zip_with (fun r v => <[j := v]> r) rs vals).
Proof.
  induction rs as [|r rs IH]; intros [|v vals] Hall; try done.
  inversion_clear Hall as [|? ? Hr Hrs]. csimpl. constructor.
  - unfold cell. rewrite list_lookup_insert_eq by done. simpl. by left.
  - eapply Forall_impl; [by apply IH|]. intros x Hx. by right.
Qed.

(** The column a coercion wrote holds integers. *)
Lemma coerce_column_ints (df : DataFrame) (name : string) (t : DataFrame) (j : nat) :
  coerce_column df name = Ok t ->
  column_index df name = Some j ->
  Forall (fun r => (j < length r)%nat) (rows df) ->
  Forall (fun v => exists z, v = VInt z) (column_at j t).
Proof.
  unfold coerce_column, getattr_col. intros Ht Hj Hall. rewrite Hj in Ht.
  rewrite result_bind_Ok in Ht.
  destruct (astype_int _) as [ints|e]; [|done].
  rewrite result_bind_Ok in Ht. injection Ht as <-.
  unfold column_at, setattr_col. rewrite Hj. simpl.
  eapply Forall_impl; [by apply cell_after_insert|].
  intros v (z & -> & _)%list_elem_of_fmap. eauto.
Qed.

(** A table the Stat Fetcher returns holds integers in [PLAYER_ID]. *)
Lemma stats_call_key pid url headers s t s' :
  get_player_career_reg_season_stats pid url headers s = (Ok t, s') ->
  exists rk,
    column_index t "PLAYER_ID" = Some rk
    /\ Forall (fun v => exists z, v = VInt z) (column_at rk t).
Proof.
  unfold get_player_career_reg_season_stats, http_get. run_bind.
  destruct (requests_get _ (world s)) as [[doc|e] w]; simpl; [|done].
  destruct (getitem (resultSets doc) 1) as [rs|e]; simpl; [|done].
  destruct (from_records _ _) as [df|e] eqn:Hdf; simpl; [|done].
  destruct (coerce_column df "PLAYER_ID") as [t'|e] eqn:Ht; [|done].
  intros [= <- <-].
  apply from_records_lengths in Hdf as [Hcols Hlen].
  pose proof (coerce_column_columns _ _ _ Ht) as [Hc [rk Hrk]].
  exists rk. split; [done|].
  assert (column_index df "PLAYER_ID" = Some rk) as Hrk'.
  { by rewrite <-(column_index_columns df t'). }
  apply (coerce_column_ints df "PLAYER_ID"); [done..|].
  apply column_index_lt in Hrk'. rewrite Hcols in Hrk'.
  eapply Forall_impl; [exact Hlen|]. intros r Hr. simpl in Hr. lia.
Qed.

Lemma fetch_each_key url headers pids : forall i s ts s',
  fetch_each url headers i pids s = (Ok ts, s') ->
  Forall (fun t => exists rk,
            column_index t "PLAYER_ID" = Some rk
            /\ Forall (fun v => exists z, v = VInt z) (column_at rk t)) ts.
Proof.
  induction pids as [|pid rest IH]; intros i s ts s'; simpl.
  { unfold mret, M_ret. by intros [= <- <-]. }
  run_bind.
  destruct (get_player_career_reg_season_stats pid url headers s)
    as [[t|e] s1] eqn:Hcall; [|done].
  apply stats_call_key in Hcall.
  destruct (fetch_each url headers (S i) rest _) as [[ts'|e] s2] eqn:Hrest; [|done].
  intros [= <- <-]. constructor; [done|]. by eapply IH.
Qed.

Lemma kind_of_key_ints (col : list value) :
  col <> [] -> Forall (fun v => is_int64_cell v = true) col ->
  kind_of_key col = KNumber.
Proof.
  intros Hne Hall. destruct col as [|v col]; [done|].
  inversion_clear Hall as [|? ? Hv Hcol].
  destruct (is_int64_cell_VInt _ Hv) as [z ->].
  unfold kind_of_key.
  assert (forallb (fun v => is_int64_cell v || is_float_or_null v) (VInt z :: col)
          = true) as ->.
  { apply forallb_forall. intros x Hx. apply list_elem_of_In in Hx.
    apply elem_of_cons in Hx as [->|Hx].
    - simpl in *. by rewrite Hv.
    - rewrite Forall_forall in Hcol. by rewrite Hcol. }
  reflexivity.
Qed.

(** Two columns of 64-bit integers can be joined on. *)
Lemma keys_compatible_ints (lcol rcol : list value) :
  lcol <> [] ->
  Forall (fun v => is_int64_cell v = true) lcol ->
  Forall (fun v => is_int64_cell v = true) rcol ->
  keys_compatible lcol rcol = true.
Proof.
  intros Hne Hl Hr. unfold keys_compatible.
  rewrite (kind_of_key_ints lcol) by done.
  destruct rcol as [|v rcol]; [done|].
  by rewrite (kind_of_key_ints (v :: rcol)).
Qed.

(** On a key column of integers, a row matches an integer key when it
    holds that integer. *)
Lemma matches_int (right : DataFrame) (rk : nat) (z : Z) (r' : list value) :
  Forall (fun v => is_int64_cell v = true) (column_at rk right) ->
  r' ∈ matches right rk (VInt z) <-> r' ∈ rows right /\ cell r' rk = VInt z.
Proof.
  intros Hall. unfold matches. rewrite list_elem_of_filter.
  split; intros [H1 H2]; (split; [|done]) || split; try done.
  - rewrite Forall_forall in Hall.
    destruct (is_int64_cell_VInt (cell r' rk)) as [z' Hz'].
    { apply Hall. unfold column_at. apply list_elem_of_fmap. eauto. }
    rewrite Hz' in *. apply key_eq_int in H1. by subst.
  - rewrite H2. by apply key_eq_int.
Qed.

Lemma joined_rows_nonempty right rk mask key l :
  joined_rows right rk mask key l <> [].
Proof.
  unfold joined_rows. by destruct (matches right rk key).
Qed.

Lemma joined_rows_prefix right rk mask key l r :
  r ∈ joined_rows right rk mask key l -> exists x, r = l ++ x.
Proof.
  unfold joined_rows. destruct (matches right rk key) as [|m ms].
  - intros ->%list_elem_of_singleton. eauto.
  - intros (x & -> & _)%list_elem_of_fmap. eauto.
Qed.

Lemma joined_rows_matched right rk mask key l r' :
  r' ∈ matches right rk key ->
  l ++ apply_mask mask r' ∈ joined_rows right rk mask key l.
Proof.
  unfold joined_rows. intros Hin.
  destruct (matches right rk key) as [|m ms]; [by apply elem_of_nil in Hin|].
  apply list_elem_of_fmap. eauto.
Qed.

Lemma joined_rows_unmatched right rk mask key l :
  matches right rk key = [] ->
  joined_rows right rk mask key l = [l ++ replicate (length (columns right)) VNone].
Proof. unfold joined_rows. by intros ->. Qed.

(** The mask is empty when every left row has a match, and marks the
    columns of 64-bit integers when one has none. *)
Lemma right_mask_all_matched left right lk rk :
  (forall l, l ∈ rows left -> matches right rk (cell l lk) <> []) ->
  right_mask left right lk rk = [].
Proof.
  intros Hall. unfold right_mask.
  destruct (existsb _ (rows left)) eqn:Hex; [|done].
  apply existsb_exists in Hex as (l & Hl%list_elem_of_In & Hm%bool_decide_eq_true).
  by apply Hall in Hl.
Qed.

Lemma right_mask_some_unmatched left right lk rk l j :
  l ∈ rows left -> matches right rk (cell l lk) = [] ->
  (j < length (columns right))%nat ->
  Forall (fun v => is_int64_cell v = true) (column_at j right) ->
  right_mask left right lk rk !! j = Some true.
Proof.
  intros Hl Hm Hj Hall. unfold right_mask.
  assert (existsb (fun l => bool_decide (matches right rk (cell l lk) = []))
                  (rows left) = true) as ->.
  { apply existsb_exists. exists l. split; [by apply list_elem_of_In|].
    by apply bool_decide_eq_true. }
  rewrite list_lookup_fmap, lookup_seq_lt by done. simpl. f_equal.
  apply forallb_forall. intros v Hv%list_elem_of_In.
  rewrite Forall_forall in Hall. by apply Hall.
Qed.

(** A table the Stat Fetcher returns has one cell per label in every
    row. *)
Lemma stats_call_lengths pid url headers s t s' :
  get_player_career_reg_season_stats pid url headers s = (Ok t, s') ->
  Forall (fun r => length r = length (columns t)) (rows t).
Proof.
  unfold get_player_career_reg_season_stats, http_get. run_bind.
  destruct (requests_get _ (world s)) as [[doc|e] w]; simpl; [|done].
  destruct (getitem (resultSets doc) 1) as [rs|e]; simpl; [|done].
  destruct (from_records _ _) as [df|e] eqn:Hdf; simpl; [|done].
  destruct (coerce_column df "PLAYER_ID") as [t'|e] eqn:Ht; [|done].
  intros [= <- <-].
  apply from_records_lengths in Hdf as [Hcols Hlen].
  unfold coerce_column, getattr_col in Ht.
  destruct (column_index df "PLAYER_ID") as [j|] eqn:Hj; [|done].
  rewrite result_bind_Ok in Ht.
  destruct (astype_int _) as [ints|e]; [|done].
  rewrite result_bind_Ok in Ht. injection Ht as <-.
  unfold setattr_col. rewrite Hj. simpl. rewrite Hcols.
  clear -Hlen. revert ints.
  induction Hlen as [|r rows' Hr _ IH]; intros [|z ints]; csimpl; try done.
  constructor; [by rewrite length_insert | apply IH].
Qed.

Lemma fetch_each_lengths url headers pids : forall i s ts s',
  fetch_each url headers i pids s = (Ok ts, s') ->
  Forall (fun t => Forall (fun r => length r = length (columns t)) (rows t)) ts.
Proof.
  induction pids as [|pid rest IH]; intros i s ts s'; simpl.
  { unfold mret, M_ret. by intros [= <- <-]. }
  run_bind.
  destruct (get_player_career_reg_season_stats pid url headers s)
    as [[t|e] s1] eqn:Hcall; [|done].
  apply stats_call_lengths in Hcall.
  destruct (fetch_each url headers (S i) rest _) as [[ts'|e] s2] eqn:Hrest; [|done].
  intros [= <- <-]. constructor; [done|]. by eapply IH.
Qed.
Lemma getitem_col_length df name col :
  getitem_col df name = Ok col -> length col = nrows df.
Proof.
  unfold getitem_col. destruct (column_index df name); [|done].
  intros [= <-]. by rewrite length_fmap.
Qed.

Lemma getitem_col_index df name col :
  getitem_col df name = Ok col -> is_Some (column_index df name).
Proof. unfold getitem_col. destruct (column_index df name); [eauto|done]. Qed.

Lemma settled_columns (key : string) (t0 : DataFrame) (rest : list DataFrame) :
  settled key (t0 :: rest) = true ->
  Forall (fun t => columns t = columns t0) (t0 :: rest).
Proof.
  unfold settled. intros [[[_ Hcols]%andb_prop _]%andb_prop _]%andb_prop.
  apply Forall_forall. intros t Ht.
  rewrite forallb_forall in Hcols.
  eapply bool_decide_eq_true, Hcols, list_elem_of_In, Ht.
Qed.

Lemma settled_plain (key : string) (ts : list DataFrame) :
  settled key ts = true -> plain_cells ts = true.
Proof.
  destruct ts as [|t0 rest]; [done|]. unfold settled.
  by intros [[_ Hplain]%andb_prop _]%andb_prop.
Qed.

(** In plain tables a cell that is an integer is a 64-bit integer. *)
Lemma plain_cells_int (ts : list DataFrame) (t : DataFrame) (j : nat) :
  plain_cells ts = true -> t ∈ ts ->
  Forall (fun v => exists z, v = VInt z) (column_at j t) ->
  Forall (fun v => is_int64_cell v = true) (column_at j t).
Proof.
  unfold plain_cells, column_at. rewrite forallb_forall. intros Hplain Ht Hints.
  specialize (Hplain t (proj1 (list_elem_of_In _ _) Ht)).
  rewrite forallb_forall in Hplain.
  rewrite Forall_forall in Hints. apply Forall_forall. intros v Hv.
  destruct (Hints v Hv) as [z ->].
  apply list_elem_of_fmap in Hv as (r & Hcell & Hr).
  specialize (Hplain r (proj1 (list_elem_of_In _ _) Hr)).
  rewrite forallb_forall in Hplain.
  unfold cell in Hcell. destruct (r !! j) as [v|] eqn:Hj; simpl in Hcell; [|done].
  subst v. apply list_elem_of_lookup_2, list_elem_of_In, Hplain in Hj. done.
Qed.

Lemma row_getitem_cell (df : DataFrame) (name : string) (j : nat)
    (r : list value) (v : value) :
  column_index df name = Some j ->
  row_getitem df r name = Ok v <-> v = cell r j.
Proof.
  intros Hj. unfold row_getitem. rewrite Hj. split; [by intros [= <-] | by intros ->].
Qed.



(** C6.  When the call of the Stat Fetcher for some row raises, after the
    calls for the rows before it returned, the collector raises the same
    exception and returns no table; it stops in the state the failing call
    left: every player up to the failing one was requested once, the
    failing one last, and no later player was requested. *)
Theorem get_player_stats_aborts df_players url headers pre pid post s ts s1 e s2 :
  getitem_col df_players "PERSON_ID" = Ok (pre ++ pid :: post) ->
  fetch_each url headers 0 pre s = (Ok ts, s1) ->
  get_player_career_reg_season_stats pid url headers s1 = (Raise e, s2) ->
  get_player_stats df_players url headers s = (Raise e, s2)
  /\ requests_of (trace s2)
     = requests_of (trace s) ++ (stat_request url headers <$> pre ++ [pid]).
Proof.
  intros Hpids Hpre Hfail.
  destruct (fetch_each_raise url headers pre pid post e _ _ _ _ _ Hpre Hfail)
    as [Hrun Hreq].
  split; [|done].
  unfold get_player_stats. rewrite Hpids. run_bind.
  rewrite loop_fetch_each. run_bind. by rewrite Hrun.
Qed.

(** C10.  On a table with the column PERSON_ID and no row the collector
    sends no request and raises [UnboundLocalError] when it reads
    [df_stats]: it returns no table, not an empty one. *)
Theorem get_player_stats_empty df_players url headers s :
  nrows df_players = 0%nat ->
  is_Some (column_index df_players "PERSON_ID") ->
  get_player_stats df_players url headers s = (Raise UnboundLocalError, s).
Proof.
  intros Hrows [j Hj]. unfold get_player_stats, getitem_col. rewrite Hj.
  destruct df_players as [cols rs]. unfold nrows in Hrows. simpl in *.
  destruct rs; [|done]. reflexivity.
Qed.

(** [astype(int)] yields one integer per entry of the column. *)
Hypothesis astype_int_length : forall col ints,
  astype_int col = Ok ints -> length ints = length col.

Lemma coerce_column_nrows df name t :
  coerce_column df name = Ok t -> nrows t = nrows df.
Proof.
  unfold coerce_column, getattr_col.
  destruct (column_index df name) as [j|] eqn:Hj; [|done].
  rewrite result_bind_Ok.
  destruct (astype_int _) as [ints|e] eqn:Hints; [|done].
  rewrite result_bind_Ok. intros [= <-].
  apply astype_int_length in Hints. rewrite length_fmap in Hints.
  apply nrows_setattr_col. by rewrite length_fmap.
Qed.

Lemma coerce_from_records rs name :
  well_shaped rs ->
  coercible rs name ->
  exists t,
    (from_records (rs_rowSet rs) (rs_headers rs) ≫= fun df => coerce_column df name)
    = Ok t
    /\ nrows t = length (rs_rowSet rs)
    /\ columns t = rs_headers rs.
Proof.
  intros Hshape (j & ints & Hj & Hints).
  destruct (from_records_well_shaped _ _ Hshape) as (df & -> & Hcols & Hrows).
  rewrite result_bind_Ok.
  assert (rows df = convert_rows (length (rs_headers rs)) (rs_rowSet rs)) as Hdata.
  { apply Hrows. intros Hnil. by rewrite Hnil in Hj. }
  destruct (coerce_column df name) as [t|e] eqn:Ht.
  - exists t. pose proof (coerce_column_nrows _ _ _ Ht) as Hn.
    apply coerce_column_columns in Ht as [Hc _].
    split_and!; [done | | congruence].
    rewrite Hn. unfold nrows. by rewrite Hdata, nrows_convert_rows.
  - unfold coerce_column, getattr_col, column_index in Ht.
    rewrite Hcols, Hj in Ht. simpl in Ht. rewrite Hdata in Ht.
    rewrite column_convert_rows, Hints in Ht; [done|].
    apply list_find_Some in Hj as (Hj & _). by eapply lookup_lt_Some.
Qed.

(** C7.  For a response whose result set has one cell per header in every
    record, and whose coerced column [astype(int)] accepts, the Roster
    Fetcher (first result set, column TO_YEAR) and the Stat Fetcher (second
    result set, column PLAYER_ID) return a table with as many rows as the
    rowSet has records and with exactly the headers as columns. *)
Theorem fetched_tables_keep_shape rs :
  well_shaped rs ->
  (forall players_url headers s doc w,
     let r := {| req_url := Url players_url; req_headers := headers |} in
     requests_get r (world s) = (Ok doc, w) ->
     resultSets doc !! 0%nat = Some rs ->
     coercible rs "TO_YEAR" ->
     exists t,
       get_players_df players_url headers s
       = (Ok t, {| world := w; trace := trace s ++ [Requested r] |})
       /\ nrows t = length (rs_rowSet rs)
       /\ columns t = rs_headers rs)
  /\ (forall player_id player_data_url headers s doc w,
        let r := stat_request player_data_url headers player_id in
        requests_get r (world s) = (Ok doc, w) ->
        resultSets doc !! 1%nat = Some rs ->
        coercible rs "PLAYER_ID" ->
        exists t,
          get_player_career_reg_season_stats player_id player_data_url headers s
          = (Ok t, {| world := w; trace := trace s ++ [Requested r] |})
          /\ nrows t = length (rs_rowSet rs)
          /\ columns t = rs_headers rs).
Proof.
  intros Hshape. split.
  - intros players_url headers s doc w r Hget Hrs Hco.
    destruct (coerce_from_records rs "TO_YEAR" Hshape Hco) as (t & Ht & Hn & Hc).
    exists t. split; [|done].
    unfold get_players_df, http_get. run_bind. fold r. rewrite Hget.
    unfold getitem. rewrite Hrs. simpl.
    apply is_Ok_bind in Ht as (df & -> & ->). done.
  - intros player_id player_data_url headers s doc w r Hget Hrs Hco.
    destruct (coerce_from_records rs "PLAYER_ID" Hshape Hco) as (t & Ht & Hn & Hc).
    exists t. split; [|done].
    unfold get_player_career_reg_season_stats, http_get. run_bind.
    fold (stat_request player_data_url headers player_id). fold r. rewrite Hget.
    unfold getitem. rewrite Hrs. simpl.
    apply is_Ok_bind in Ht as (df & -> & ->). done.
Qed.

(** ** More on the fetchers *)

(** X1.  Whatever the outcome, each fetcher sends exactly one request, its
    own, and leaves no other event: a failed fetch is never retried. *)
Theorem fetchers_send_one_request :
  (forall players_url headers s,
     trace (get_players_df players_url headers s).2
     = trace s ++ [Requested {| req_url := Url players_url;
                                req_headers := headers |}])
  /\ (forall player_id player_data_url headers s,
        trace (get_player_career_reg_season_stats
                 player_id player_data_url headers s).2
        = trace s ++ [Requested (stat_request player_data_url headers player_id)]).
Proof.
  split.
  - intros players_url headers s.
    unfold get_players_df, http_get. run_bind.
    destruct (requests_get _ (world s)) as [[doc|e] w]; simpl; [|done].
    destruct (getitem (resultSets doc) 0) as [rs|e]; simpl; [|done].
    by destruct (from_records _ _) as [df|e].
  - intros player_id player_data_url headers s.
    unfold get_player_career_reg_season_stats, http_get. run_bind.
    destruct (requests_get _ (world s)) as [[doc|e] w]; simpl; [|done].
    destruct (getitem (resultSets doc) 1) as [rs|e]; simpl; [|done].
    by destruct (from_records _ _) as [df|e].
Qed.

(** X2.  The Stat Fetcher reads the second result set: on a response with
    fewer than two result sets it raises [IndexError]. *)
Theorem stats_need_second_result_set player_id player_data_url headers s doc w :
  requests_get (stat_request player_data_url headers player_id) (world s)
  = (Ok doc, w) ->
  (length (resultSets doc) < 2)%nat ->
  (get_player_career_reg_season_stats player_id player_data_url headers s).1
  = Raise IndexError.
Proof.
  intros Hget Hlen.
  unfold get_player_career_reg_season_stats, http_get. run_bind.
  fold (stat_request player_data_url headers player_id). rewrite Hget.
  unfold getitem. rewrite lookup_ge_None_2 by lia. done.
Qed.

(** X3.  On a result set with one cell per header in every record but
    without the header TO_YEAR, the Roster Fetcher raises
    [AttributeError]: the table is built and the column access fails. *)
Theorem roster_needs_to_year players_url headers s doc w rs :
  requests_get {| req_url := Url players_url; req_headers := headers |} (world s)
  = (Ok doc, w) ->
  resultSets doc !! 0%nat = Some rs ->
  well_shaped rs ->
  "TO_YEAR" ∉ rs_headers rs ->
  (get_players_df players_url headers s).1 = Raise AttributeError.
Proof.
  intros Hget Hrs Hshape Hno.
  unfold get_players_df, http_get. run_bind. rewrite Hget.
  unfold getitem. rewrite Hrs. simpl.
  destruct (from_records_well_shaped _ _ Hshape) as (df & -> & Hcols & _).
  simpl. unfold coerce_column, getattr_col, column_index. rewrite Hcols.
  destruct (list_find _ (rs_headers rs)) as [[j c]|] eqn:Hfind; [|done].
  apply list_find_Some in Hfind as (Hj & -> & _).
  destruct Hno. by eapply list_elem_of_lookup_2.
Qed.

Lemma column_after_insert (j : nat) (rs : list (list value)) : forall vals,
  length vals = length rs ->
  Forall (fun r => (j < length r)%nat) rs ->
  (fun r => cell r j) <$> zip_with (fun r v => <[j := v]> r) rs vals = vals.
Proof.
  induction rs as [|r rs IH]; intros [|v vals] Hlen Hall; try done.
  inversion_clear Hall as [|? ? Hr Hrs]. simpl in Hlen. csimpl.
  rewrite IH by (done || lia). f_equal.
  unfold cell. by rewrite list_lookup_insert_eq.
Qed.

Lemma other_column_after_insert (j j' : nat) (rs : list (list value)) : forall vals,
  j <> j' ->
  length vals = length rs ->
  (fun r => cell r j') <$> zip_with (fun r v => <[j := v]> r) rs vals
  = (fun r => cell r j') <$> rs.
Proof.
  induction rs as [|r rs IH]; intros [|v vals] Hne Hlen; try done.
  simpl in Hlen. csimpl. rewrite IH by (done || lia). f_equal.
  unfold cell. by rewrite list_lookup_insert_ne.
Qed.

(** X4.  The cells of a table the Stat Fetcher returns, for a result set
    with one cell per header in every record, no header twice, no boolean
    and no integer beyond 64 bits.  PLAYER_ID holds the integers
    [astype(int)] made of the column.  Every other column holds the cells
    of the response as pandas stores the column: as they are, except that
    in a column of numbers and nulls which has an integer beside a float
    or a null the integers are stored as floats. *)
Theorem stats_table_cells player_id player_data_url headers s doc w rs t s' :
  requests_get (stat_request player_data_url headers player_id) (world s)
  = (Ok doc, w) ->
  resultSets doc !! 1%nat = Some rs ->
  well_shaped rs ->
  NoDup (rs_headers rs) ->
  Forall (Forall (fun v => plain_cell v = true)) (rs_rowSet rs) ->
  get_player_career_reg_season_stats player_id player_data_url headers s
  = (Ok t, s') ->
  (exists k ints,
      list_find (fun c' => c' = "PLAYER_ID") (rs_headers rs)
      = Some (k, "PLAYER_ID")
      /\ astype_int (convert_column ((fun r => cell r k) <$> rs_rowSet rs))
         = Ok ints
      /\ getitem_col t "PLAYER_ID" = Ok (VInt <$> ints))
  /\ (forall c j,
        c <> "PLAYER_ID" ->
        list_find (fun c' => c' = c) (rs_headers rs) = Some (j, c) ->
        getitem_col t c
        = Ok (convert_column ((fun r => cell r j) <$> rs_rowSet rs))).
Proof.
  intros Hget Hrs Hshape _ _.
  unfold get_player_career_reg_season_stats, http_get. run_bind.
  fold (stat_request player_data_url headers player_id). rewrite Hget.
  unfold getitem. rewrite Hrs. simpl.
  destruct (from_records_well_shaped _ _ Hshape) as (df & Hdf & Hcols & Hrows).
  rewrite Hdf. simpl. unfold coerce_column, getattr_col.
  destruct (column_index df "PLAYER_ID") as [k|] eqn:Hk; [|done].
  rewrite result_bind_Ok.
  destruct (astype_int _) as [ints|e] eqn:Hints; [|done].
  rewrite result_bind_Ok. intros [= <- <-].
  pose proof (astype_int_length _ _ Hints) as Hlen. rewrite length_fmap in Hlen.
  assert (list_find (fun c' => c' = "PLAYER_ID") (rs_headers rs)
          = Some (k, "PLAYER_ID")) as Hfind.
  { unfold column_index in Hk. rewrite Hcols in Hk.
    destruct (list_find _ (rs_headers rs)) as [[k' c]|] eqn:Hf; [|done].
    injection Hk as ->. by apply list_find_Some in Hf as Hf'; destruct Hf' as (_ & -> & _). }
  assert (rows df = convert_rows (length (rs_headers rs)) (rs_rowSet rs)) as Hdata.
  { apply Hrows. intros Hnil. by rewrite Hnil in Hfind. }
  apply from_records_lengths in Hdf as [_ Hlens].
  assert (forall c, column_index (setattr_col df "PLAYER_ID" (VInt <$> ints)) c
                    = column_index df c) as Hidx.
  { intros c. apply column_index_columns, columns_setattr_col. }
  assert (forall j c, list_find (fun c' => c' = c) (rs_headers rs) = Some (j, c) ->
            (fun r => cell r j) <$> rows df
            = convert_column ((fun r => cell r j) <$> rs_rowSet rs)) as Hcolumn.
  { intros j c (Hj & _)%list_find_Some. rewrite Hdata.
    apply column_convert_rows. by eapply lookup_lt_Some. }
  split.
  - exists k, ints. split_and!; [done | by rewrite <-(Hcolumn k "PLAYER_ID") |].
    unfold getitem_col. rewrite Hidx, Hk. f_equal.
    unfold setattr_col. rewrite Hk. simpl.
    apply column_after_insert; [by rewrite length_fmap|].
    apply list_find_Some in Hfind as (Hlook & _).
    apply lookup_lt_Some in Hlook.
    eapply Forall_impl; [exact Hlens|]. intros r Hr. simpl in Hr. lia.
  - intros c j Hne Hc.
    unfold getitem_col. rewrite Hidx. unfold column_index. rewrite Hcols, Hc.
    simpl. f_equal. rewrite <-(Hcolumn j c) by done.
    unfold setattr_col. rewrite Hk. simpl.
    apply other_column_after_insert; [|by rewrite length_fmap].
    intros ->. apply list_find_Some in Hfind as (Hlook & _).
    apply list_find_Some in Hc as (Hlook' & _). congruence.
Qed.
(** ** More on the batch collector *)

(** X5.  Without the column PERSON_ID the collector raises [KeyError]
    before it sends any request. *)
Theorem get_player_stats_needs_person_id df_players url headers s :
  "PERSON_ID" ∉ columns df_players ->
  get_player_stats df_players url headers s = (Raise KeyError, s).
Proof.
  intros Hno. unfold get_player_stats, getitem_col, column_index.
  destruct (list_find _ (columns df_players)) as [[j c]|] eqn:Hfind; [|done].
  apply list_find_Some in Hfind as (Hj & -> & _).
  destruct Hno. by eapply list_elem_of_lookup_2.
Qed.

Lemma get_player_stats_Ok df_players url headers s joined s' :
  get_player_stats df_players url headers s = (Ok joined, s') ->
  exists pids t0 rest,
    getitem_col df_players "PERSON_ID" = Ok pids
    /\ fetch_each url headers 0 pids s = (Ok (t0 :: rest), s')
    /\ merge_left df_players (fold_left append rest t0) "PERSON_ID" "PLAYER_ID"
       = Ok joined.
Proof.
  unfold get_player_stats.
  destruct (getitem_col df_players "PERSON_ID") as [pids|e] eqn:Hpids; [|done].
  run_bind. rewrite loop_fetch_each. run_bind.
  destruct (fetch_each url headers 0 pids s) as [[ts|e] s1] eqn:Hfetch; [|done].
  destruct ts as [|t0 rest]; simpl; [done|].
  destruct (merge_left _ _ _ _) as [j|e] eqn:Hmerge; [|done].
  intros [= <- <-]. by exists pids, t0, rest.
Qed.

Lemma fetch_each_trace url headers pids : forall i s ts s',
  fetch_each url headers i pids s = (Ok ts, s') ->
  trace s' = trace s ++ batch_events url headers i pids.
Proof.
  induction pids as [|pid rest IH]; intros i s ts s'; simpl.
  { unfold mret, M_ret. intros [= <- <-]. by rewrite app_nil_r. }
  run_bind.
  destruct (get_player_career_reg_season_stats pid url headers s)
    as [[t|e] s1] eqn:Hcall; [|done].
  apply stats_call in Hcall as [Htrace _].
  destruct (fetch_each url headers (S i) rest _) as [[ts'|e] s2] eqn:Hrest; [|done].
  intros [= <- <-].
  apply IH in Hrest. simpl in Hrest. rewrite Hrest, Htrace.
  by rewrite <-!app_assoc.
Qed.

(** X6.  When the collector returns, it has left in the trace, for every
    row in row order: the request for the row's player, the progress line
    with the row's position counted from 0, and a pause of 2 seconds;
    nothing else, and nothing in between. *)
Theorem get_player_stats_trace df_players url headers pids s joined s' :
  getitem_col df_players "PERSON_ID" = Ok pids ->
  get_player_stats df_players url headers s = (Ok joined, s') ->
  trace s' = trace s ++ batch_events url headers 0 pids.
Proof.
  intros Hpids (pids' & t0 & rest & Hpids' & Hfetch & _)%get_player_stats_Ok.
  rewrite Hpids in Hpids'. injection Hpids' as <-.
  by eapply fetch_each_trace.
Qed.

Lemma length_bind_nonempty {A B} (f : A -> list B) (l : list A) :
  (forall x, f x <> []) -> (length l <= length (l ≫= f))%nat.
Proof.
  intros Hf. induction l as [|x l IH]; csimpl; [done|].
  rewrite length_app. specialize (Hf x). destruct (f x); [done|]. simpl. lia.
Qed.

(** X7.  The table the collector returns keeps every roster row and adds
    none: it has at least as many rows as the roster, every row of it
    starts with a roster row, and every roster row starts one of its
    rows. *)
Theorem get_player_stats_keeps_roster df_players url headers s joined s' :
  get_player_stats df_players url headers s = (Ok joined, s') ->
  (nrows df_players <= nrows joined)%nat
  /\ (forall r, r ∈ rows joined -> exists l x, l ∈ rows df_players /\ r = l ++ x)
  /\ (forall l, l ∈ rows df_players -> exists x, l ++ x ∈ rows joined).
Proof.
  intros (pids & t0 & rest & _ & _ & Hmerge)%get_player_stats_Ok.
  unfold merge_left in Hmerge.
  destruct (column_index df_players "PERSON_ID") as [lk|]; [|done].
  destruct (column_index _ "PLAYER_ID") as [rk|]; [|done].
  destruct (keys_compatible _ _); [|done].
  injection Hmerge as <-. unfold nrows. simpl.
  set (df_stats := fold_left append rest t0).
  set (mask := right_mask df_players df_stats lk rk).
  split_and!.
  - apply length_bind_nonempty. intros l. apply joined_rows_nonempty.
  - intros r (l & Hr & Hl)%list_elem_of_bind.
    apply joined_rows_prefix in Hr as [x ->]. eauto.
  - intros l Hl.
    destruct (joined_rows df_stats rk mask (cell l lk) l)
      as [|r rs] eqn:Hj; [by apply joined_rows_nonempty in Hj|].
    assert (r ∈ joined_rows df_stats rk mask (cell l lk) l) as Hr.
    { rewrite Hj. by left. }
    destruct (joined_rows_prefix _ _ _ _ _ _ Hr) as [x ->].
    exists x. apply list_elem_of_bind. eauto.
Qed.

Lemma apply_mask_false (mask : list bool) (r : list value) :
  (forall j, (j < length r)%nat -> default false (mask !! j) = false) ->
  apply_mask mask r = r.
Proof.
  intros Hmask. unfold apply_mask. apply list_eq. intros j.
  rewrite list_lookup_imap. destruct (r !! j) as [v|] eqn:Hj; [|done]. simpl.
  by rewrite Hmask by (by eapply lookup_lt_Some).
Qed.

(** Rows with one cell per label are kept when no column needs floats. *)
Lemma convert_rows_unchanged (n : nat) (rs : list (list value)) :
  Forall (fun r => length r = n) rs ->
  (forall j, (j < n)%nat -> needs_float ((fun r => cell r j) <$> rs) = false) ->
  convert_rows n rs = rs.
Proof.
  intros Hlen Hno. unfold convert_rows.
  transitivity (id <$> rs); [|apply list_fmap_id]. apply Forall_fmap_ext.
  eapply Forall_impl; [exact Hlen|]. intros r Hr. simpl in *.
  apply apply_mask_false. intros j Hj.
  rewrite list_lookup_fmap, lookup_seq_lt by lia. simpl. apply Hno. lia.
Qed.

Lemma mixes_app_l (a b : list value) : mixes (a ++ b) = false -> mixes a = false.
Proof.
  unfold mixes. rewrite !existsb_app.
  by destruct (existsb is_int64_cell a), (existsb is_float_or_null a).
Qed.

Lemma needs_float_mixes (col : list value) :
  mixes col = false -> needs_float col = false.
Proof.
  unfold mixes, needs_float. intros Hmix.
  by rewrite <-andb_assoc, Hmix, andb_false_r.
Qed.

Lemma unmixed_column (n j : nat) (ts : list DataFrame) :
  unmixed n ts = true -> (j < n)%nat ->
  mixes (concat (column_at j <$> ts)) = false.
Proof.
  unfold unmixed. rewrite forallb_forall. intros Hall Hj.
  apply negb_true_iff, Hall, list_elem_of_In, elem_of_seq. lia.
Qed.

(** Appending tables that have the same labels, one cell per label in
    every row and no column that mixes integers with floats or nulls,
    puts their rows one after the other. *)
Lemma fold_append_unmixed (cols : list string) (ts : list DataFrame) :
  forall t,
  Forall (fun t' => columns t' = cols) (t :: ts) ->
  Forall (fun t' => Forall (fun r => length r = length cols) (rows t')) (t :: ts) ->
  unmixed (length cols) (t :: ts) = true ->
  fold_left append ts t
  = {| columns := cols; rows := rows t ++ concat (rows <$> ts) |}.
Proof.
  induction ts as [|t' ts IH]; intros t Hcols Hlens Hun; csimpl.
  { rewrite app_nil_r. inversion_clear Hcols. destruct t. by simpl in *; subst. }
  inversion_clear Hcols as [|? ? Ht Hcols'].
  inversion_clear Hcols' as [|? ? Ht' Hts].
  inversion_clear Hlens as [|? ? Hl Hlens'].
  inversion_clear Hlens' as [|? ? Hl' Hlts].
  assert (append t t' = {| columns := cols; rows := rows t ++ rows t' |}) as ->.
  { rewrite append_same_columns by congruence. rewrite Ht. f_equal.
    apply convert_rows_unchanged; [by apply Forall_app|].
    intros j Hj. apply needs_float_mixes. rewrite fmap_app.
    apply (mixes_app_l _ (concat (column_at j <$> ts))).
    rewrite <-app_assoc. by apply (unmixed_column _ j _ Hun). }
  rewrite IH; simpl.
  - by rewrite <-app_assoc.
  - by constructor.
  - constructor; [by apply Forall_app | done].
  - unfold unmixed in *. rewrite forallb_forall in Hun. apply forallb_forall.
    intros j Hj. specialize (Hun j Hj). csimpl in *.
    unfold column_at at 1. simpl. rewrite fmap_app, <-app_assoc. done.
Qed.

(** X8.  When the fetched tables have the same labels, none twice, no
    boolean, no integer beyond 64 bits and no column that holds an integer
    beside a float or a null, the loop leaves in [df_stats] the table with
    those labels and, as its rows, the rows of the fetched tables in fetch
    order: the branch for the first row and the appends of the later rows
    together build the plain concatenation. *)
Theorem get_player_stats_concatenates url headers pids s ts s' cols :
  pids <> [] ->
  fetch_each url headers 0 pids s = (Ok ts, s') ->
  NoDup cols ->
  Forall (fun t => columns t = cols) ts ->
  plain_cells ts = true ->
  unmixed (length cols) ts = true ->
  get_player_stats_loop url headers 0 pids None s
  = (Ok (Some {| columns := cols; rows := concat (rows <$> ts) |}), s').
Proof.
  intros Hpids Hfetch _ Hcols _ Hun.
  destruct (fetch_each_Ok _ _ _ _ _ _ _ Hfetch) as (Hts & _ & _).
  pose proof (fetch_each_lengths _ _ _ _ _ _ _ Hfetch) as Hlens.
  destruct ts as [|t0 rest]; [by destruct pids|].
  rewrite loop_fetch_each. run_bind. rewrite Hfetch. simpl.
  rewrite (fold_append_unmixed cols); [done | done | | done].
  rewrite Forall_forall in Hcols, Hlens. apply Forall_forall. intros t Ht.
  rewrite <-(Hcols t Ht). by apply Hlens.
Qed.
(** ** More on the name split *)

Lemma list_ascii_of_string_app (a b : string) :
  list_ascii_of_string (a +:+ b) = list_ascii_of_string a ++ list_ascii_of_string b.
Proof.
  induction a as [|c a IH]; [done|].
  rewrite string_append_cons. simpl. by rewrite IH.
Qed.

Lemma is_token_intro (t : string) :
  t <> EmptyString ->
  forallb (fun c => negb (isspace c)) (list_ascii_of_string t) = true ->
  is_token t = true.
Proof.
  intros Hne Hsp. unfold is_token. rewrite Hsp, andb_true_r.
  apply negb_true_iff. by apply String.eqb_neq.
Qed.

(** Every string [split] returns is a token. *)
Lemma split_from_tokens (s : string) : forall tok,
  forallb (fun c => negb (isspace c)) (list_ascii_of_string tok) = true ->
  Forall (fun t => is_token t = true) (split_from tok s).
Proof.
  induction s as [|c s IH]; intros tok Htok; simpl.
  - case_decide; [done|]. constructor; [|done]. by apply is_token_intro.
  - destruct (isspace c) eqn:Hc.
    + case_decide; [by apply IH|].
      constructor; [by apply is_token_intro | by apply IH].
    + apply IH. rewrite list_ascii_of_string_app, forallb_app, Htok. simpl.
      by rewrite Hc.
Qed.

Lemma split_from_token_space (t : string) : forall tok c rest,
  forallb (fun c => negb (isspace c)) (list_ascii_of_string t) = true ->
  tok +:+ t <> EmptyString ->
  isspace c = true ->
  split_from tok (t +:+ String c rest) = (tok +:+ t) :: split_from EmptyString rest.
Proof.
  induction t as [|a t IH]; intros tok c rest Hsp Hne Hc.
  - rewrite string_append_empty_r in Hne |- *.
    change (EmptyString +:+ String c rest) with (String c rest).
    simpl. rewrite Hc. by case_decide.
  - simpl in Hsp. apply andb_prop in Hsp as [Ha Ht].
    apply negb_true_iff in Ha.
    rewrite string_append_cons. simpl. rewrite Ha.
    rewrite IH; [|done| |done].
    + by rewrite string_append_assoc.
    + rewrite string_append_assoc. intros Hempty. destruct tok; discriminate Hempty.
Qed.

(** Splitting undoes joining tokens with single spaces. *)
Lemma split_unwords (ts : list string) :
  Forall (fun t => is_token t = true) ts -> split (unwords ts) = ts.
Proof.
  induction 1 as [|t ts Ht Hts IH]; [done|].
  destruct ts as [|t' ts]; [by apply split_token|].
  change (unwords (t :: t' :: ts)) with (t +:+ String " " (unwords (t' :: ts))).
  unfold is_token in Ht. apply andb_prop in Ht as [Hne Hsp].
  unfold split. rewrite split_from_token_space; [|done| |done].
  - change (EmptyString +:+ t) with t. f_equal. exact IH.
  - change (EmptyString +:+ t) with t. intros ->. by rewrite String.eqb_refl in Hne.
Qed.

(** X9.  For a display name made of tokens separated by single spaces, the
    member's first name is the last token and its last name is the first
    token, whatever lies between them: "De La Cruz, Juan Carlos" gives the
    first name "Carlos" and the last name "De". *)
Theorem member_takes_outer_tokens players_df i r pid ts first_token last_token :
  rows players_df !! i = Some r ->
  row_getitem players_df r "PERSON_ID" = Ok pid ->
  row_getitem players_df r "DISPLAY_LAST_COMMA_FIRST" = Ok (VStr (unwords ts)) ->
  Forall (fun t => is_token t = true) ts ->
  head ts = Some last_token ->
  last ts = Some first_token ->
  member players_df i
  = Ok {| player_id := pid; first_name := first_token; last_name := last_token |}.
Proof.
  intros Hr Hpid Hname Hts Hhead Hlast.
  rewrite (member_row _ _ _ _ _ Hr Hpid Hname), (split_unwords ts Hts).
  unfold getitem_last, getitem_first. by rewrite Hhead, Hlast.
Qed.

Lemma member_Ok players_df i p :
  member players_df i = Ok p ->
  exists r name,
    rows players_df !! i = Some r
    /\ row_getitem players_df r "DISPLAY_LAST_COMMA_FIRST" = Ok (VStr name)
    /\ last (split name) = Some (first_name p)
    /\ head (split name) = Some (last_name p).
Proof.
  unfold member, iloc.
  destruct (rows players_df !! i) as [r|]; [|done].
  rewrite !result_bind_Ok.
  destruct (row_getitem players_df r "PERSON_ID") as [pid|e]; [|done].
  rewrite !result_bind_Ok.
  destruct (row_getitem players_df r "DISPLAY_LAST_COMMA_FIRST")
    as [[| | | |name]|e] eqn:Hname; try done.
  rewrite !result_bind_Ok. unfold str_split. rewrite !result_bind_Ok.
  unfold getitem_last, getitem_first.
  destruct (last (split name)) as [l|] eqn:Hl; [|done].
  rewrite !result_bind_Ok, Hname, !result_bind_Ok.
  destruct (head (split name)) as [f|] eqn:Hf; [|done].
  rewrite !result_bind_Ok. intros [= <-]. simpl. by exists r, name.
Qed.

(** X10.  The names of a member that is built are tokens: neither is
    empty and neither contains whitespace. *)
Theorem member_names_are_tokens players_df i p :
  member players_df i = Ok p ->
  is_token (first_name p) = true /\ is_token (last_name p) = true.
Proof.
  intros (r & name & _ & _ & Hlast & Hhead)%member_Ok.
  pose proof (split_from_tokens name EmptyString eq_refl) as Htok.
  fold (split name) in Htok.
  rewrite Forall_forall in Htok. split; apply Htok.
  - apply last_Some in Hlast as [l' ->]. apply elem_of_app. right. by left.
  - destruct (split name); [done|]. injection Hhead as ->. by left.
Qed.

(** X11.  What makes a member fail: a position past the last row raises
    [IndexError]; a table without PERSON_ID raises [KeyError]; a display
    name that is not a string raises [AttributeError]; a display name
    without a token (empty or all whitespace) raises [IndexError]. *)
Theorem member_failures players_df i :
  ((nrows players_df <= i)%nat -> member players_df i = Raise IndexError)
  /\ (forall r,
        rows players_df !! i = Some r ->
        "PERSON_ID" ∉ columns players_df ->
        member players_df i = Raise KeyError)
  /\ (forall r pid v,
        rows players_df !! i = Some r ->
        row_getitem players_df r "PERSON_ID" = Ok pid ->
        row_getitem players_df r "DISPLAY_LAST_COMMA_FIRST" = Ok v ->
        (forall name, v <> VStr name) ->
        member players_df i = Raise AttributeError)
  /\ (forall r pid name,
        rows players_df !! i = Some r ->
        row_getitem players_df r "PERSON_ID" = Ok pid ->
        row_getitem players_df r "DISPLAY_LAST_COMMA_FIRST" = Ok (VStr name) ->
        forallb isspace (list_ascii_of_string name) = true ->
        member players_df i = Raise IndexError).
Proof.
  split_and!.
  - intros Hi. unfold member, iloc. by rewrite lookup_ge_None_2.
  - intros r Hr Hno. unfold member, iloc. rewrite Hr, result_bind_Ok.
    assert (column_index players_df "PERSON_ID" = None) as Hidx.
    { unfold column_index.
      destruct (list_find _ (columns players_df)) as [[j c]|] eqn:Hfind; [|done].
      apply list_find_Some in Hfind as (Hj & -> & _).
      destruct Hno. by eapply list_elem_of_lookup_2. }
    unfold row_getitem. by rewrite Hidx.
  - intros r pid v Hr Hpid Hname Hv. unfold member, iloc.
    rewrite Hr, !result_bind_Ok, Hpid, !result_bind_Ok, Hname, !result_bind_Ok.
    destruct v as [| | | |name]; try done. by destruct (Hv name).
  - intros r pid name Hr Hpid Hname Hblank.
    rewrite (member_row _ _ _ _ _ Hr Hpid Hname).
    assert (split name = []) as ->; [|done].
    unfold split. clear -Hblank. induction name as [|c name IH]; [done|].
    simpl in *. apply andb_prop in Hblank as [-> Hrest]. simpl. by apply IH.
Qed.

(** ** More on the scan *)

Lemma getitem_cols_KeyError (df : DataFrame) (names : list string) :
  (exists c, c ∈ names /\ c ∉ columns df) ->
  getitem_cols df names = Raise KeyError.
Proof.
  intros (c & Hc & Hno).
  assert (column_index df c = None) as Hidx.
  { unfold column_index.
    destruct (list_find _ (columns df)) as [[j c']|] eqn:Hfind; [|done].
    apply list_find_Some in Hfind as (Hj & -> & _).
    destruct Hno. by eapply list_elem_of_lookup_2. }
  unfold getitem_cols.
  assert (mapM (fun name => match column_index df name with
                            | Some j => Ok j
                            | None => Raise KeyError
                            end) names = Raise KeyError) as ->; [|done].
  induction names as [|n names IH]; [by apply elem_of_nil in Hc|].
  simpl. destruct (column_index df n) as [j|] eqn:Hn; [|done].
  rewrite result_bind_Ok.
  apply elem_of_cons in Hc as [->|Hc]; [congruence|].
  by rewrite IH.
Qed.

(** X12.  When a feature column is missing from the table, [cluster]
    raises [KeyError] before anything is fitted or printed. *)
Theorem cluster_needs_feature_columns players_df columns s c :
  c ∈ columns ->
  c ∉ Pandas.columns players_df ->
  cluster players_df columns s = (Raise KeyError, s).
Proof.
  intros Hc Hno.
  unfold cluster, scan. rewrite range_2_9. simpl.
  unfold evaluate. run_bind.
  rewrite getitem_cols_KeyError by eauto. done.
Qed.

Lemma candidates_raise players_df columns pre n post e : forall s cs s1 s2,
  candidates players_df columns pre s = (Ok cs, s1) ->
  evaluate players_df columns n s1 = (Raise e, s2) ->
  candidates players_df columns (pre ++ n :: post) s = (Raise e, s2).
Proof.
  induction pre as [|n' pre IH]; intros s cs s1 s2; simpl.
  { unfold mret, M_ret. intros [= <- <-] Hfail.
    unfold mbind, M_bind. by rewrite Hfail. }
  unfold mbind, M_bind, mret, M_ret.
  destruct (evaluate players_df columns n' s) as [[c|e'] s'] eqn:Hc; [|done].
  destruct (candidates players_df columns pre s') as [[cs'|e'] s''] eqn:Hpre; [|done].
  intros [= <- <-] Hfail.
  by rewrite (IH _ _ _ _ Hpre Hfail).
Qed.

(** X13.  When the fit or the score of a candidate raises, after the
    candidates before it were scored, [cluster] raises the same exception
    in the state that candidate left: no later candidate is tried and no
    report is built from the best so far. *)
Theorem cluster_aborts_on_first_failure players_df columns pre n post s cs s1 e s2 :
  range 2 9 = pre ++ n :: post ->
  candidates players_df columns pre s = (Ok cs, s1) ->
  evaluate players_df columns n s1 = (Raise e, s2) ->
  cluster players_df columns s = (Raise e, s2).
Proof.
  intros Hrange Hpre Hfail.
  unfold cluster, scan.
  unfold mbind at 1. unfold M_bind at 1.
  unfold mbind at 1. unfold M_bind at 1.
  rewrite scan_loop_candidates.
  unfold mbind at 1. unfold M_bind at 1.
  by rewrite Hrange, (candidates_raise _ _ _ _ _ _ _ _ _ _ Hpre Hfail).
Qed.

(** X14.  The initial best score is -99: when no candidate scores above
    it, nothing is selected and [cluster] raises [TypeError] where it
    builds the keys from the selected count. *)
Theorem cluster_without_selection players_df columns s cs s' :
  candidates players_df columns (range 2 9) s = (Ok cs, s') ->
  Forall (fun c => (cand_score c <= Q2Qc (-99))%Qc) cs ->
  cluster players_df columns s
  = (Raise TypeError,
     {| world := world s'; trace := trace s' ++ [Printed (Returning None)] |}).
Proof.
  intros Hcs Hlow.
  pose proof (scan_candidates _ _ _ _ _ Hcs) as Hscan.
  destruct (fold_update_first_maximal cs initial_best)
    as [[Heq _]|(j & c & Hj & _ & Hgt & _)].
  - rewrite Heq in Hscan. unfold cluster.
    unfold mbind at 1. unfold M_bind at 1. by rewrite Hscan.
  - rewrite Forall_forall in Hlow.
    apply list_elem_of_lookup_2 in Hj. apply Hlow in Hj.
    by apply Qcle_not_lt in Hj.
Qed.

Lemma candidates_counts players_df columns ns : forall s cs s',
  candidates players_df columns ns s = (Ok cs, s') -> cand_n <$> cs = ns.
Proof.
  induction ns as [|n ns IH]; intros s cs s'; simpl.
  { unfold mret, M_ret. by intros [= <- <-]. }
  unfold mbind, M_bind, mret, M_ret.
  destruct (evaluate players_df columns n s) as [[c|e] s1] eqn:Hc; [|done].
  destruct (candidates players_df columns ns s1) as [[cs1|e] s2] eqn:Hcs; [|done].
  intros [= <- <-]. csimpl. rewrite (IH _ _ _ Hcs). f_equal.
  revert Hc. unfold evaluate, kmeans_fit_predict. run_bind.
  destruct (getitem_cols players_df columns) as [X|e]; [|done].
  destruct (fit_predict n X (world s)) as [[labels|e] w]; [|done].
  destruct (silhouette_score X labels) as [q|e]; [|done].
  by intros [= <- <-].
Qed.

Lemma candidates_trace players_df columns ns : forall s cs s',
  candidates players_df columns ns s = (Ok cs, s') ->
  trace s' = trace s ++ (score_line <$> cs).
Proof.
  induction ns as [|n ns IH]; intros s cs s'; simpl.
  { unfold mret, M_ret. intros [= <- <-]. by rewrite app_nil_r. }
  unfold mbind, M_bind, mret, M_ret.
  destruct (evaluate players_df columns n s) as [[c|e] s1] eqn:Hc; [|done].
  destruct (candidates players_df columns ns s1) as [[cs1|e] s2] eqn:Hcs; [|done].
  intros [= <- <-]. apply IH in Hcs. rewrite Hcs. csimpl.
  assert (trace s1 = trace s ++ [score_line c]) as ->;
    [|by rewrite <-app_assoc].
  revert Hc. unfold evaluate, kmeans_fit_predict. run_bind.
  destruct (getitem_cols players_df columns) as [X|e]; [|done].
  destruct (fit_predict n X (world s)) as [[labels|e] w]; [|done].
  destruct (silhouette_score X labels) as [q|e]; [|done].
  by intros [= <- <-].
Qed.

(** X15.  When the scan returns, it has printed one score line per
    candidate, for n = 2, ..., 8 in this order, and then the line with the
    selected count; it has left no other event. *)
Theorem scan_prints_scores players_df columns s b s' :
  scan players_df columns s = (Ok b, s') ->
  exists cs,
    cand_n <$> cs = [2; 3; 4; 5; 6; 7; 8]
    /\ trace s' = trace s ++ (score_line <$> cs) ++ [Printed (Returning (optimal_n b))].
Proof.
  intros Hscan.
  destruct (scan_Ok_candidates _ _ _ _ _ Hscan) as (cs & s1 & Hcs & ->).
  rewrite (scan_candidates _ _ _ _ _ Hcs) in Hscan.
  injection Hscan as <-.
  exists cs. split.
  - by rewrite (candidates_counts _ _ _ _ _ _ Hcs), range_2_9.
  - simpl. rewrite (candidates_trace _ _ _ _ _ _ Hcs). by rewrite <-app_assoc.
Qed.

(** ** More on the report *)

(** The loop over a prefix of the labels whose rows have members. *)
Lemma report_loop_prefix players_df pre rest : forall i clusters ps,
  Forall2 (fun k p => member players_df k = Ok p) (seq i (length pre)) ps ->
  Forall (fun l => is_Some (clusters !! l)) pre ->
  exists mid,
    (forall l, mid !! l
       = (fun old => old ++ members_with l pre ps) <$> clusters !! l)
    /\ report_loop players_df i (pre ++ rest) clusters
       = report_loop players_df (i + length pre) rest mid.
Proof.
  induction pre as [|label pre IH]; intros i clusters ps Hps Hkeys; simpl in *.
  { exists clusters. split.
    - intros l. destruct (clusters !! l); simpl; [|done].
      unfold members_with. by rewrite app_nil_r.
    - by rewrite Nat.add_0_r. }
  inversion Hps as [|? p ? ps' Hp Hps']; subst.
  inversion_clear Hkeys as [|? ? [m Hm] Hrest].
  unfold dict_getitem. rewrite Hm. simpl. rewrite Hp. simpl.
  destruct (IH (S i) (<[label := m ++ [p]]> clusters) ps') as (mid & Hlook & Hrun);
    [done| |].
  { eapply Forall_impl; [exact Hrest|]. intros l Hl. simpl in Hl.
    rewrite lookup_insert. by case_decide. }
  exists mid. split.
  - intros l. rewrite Hlook, members_with_cons, lookup_insert.
    case_decide as Heq; [subst|done].
    rewrite Hm. simpl. by rewrite <-app_assoc.
  - rewrite Hrun. f_equal. lia.
Qed.

Lemma members_exist_prefix players_df (n : nat) :
  (n <= nrows players_df)%nat ->
  Forall (has_identity players_df) (take n (rows players_df)) ->
  exists ps, Forall2 (fun i p => member players_df i = Ok p) (seq 0 n) ps.
Proof.
  intros Hn Hall.
  assert (forall i, i ∈ seq 0 n -> exists p, member players_df i = Ok p) as Hmem.
  { intros i [_ Hi]%elem_of_seq. simpl in Hi.
    destruct (lookup_lt_is_Some_2 (rows players_df) i) as [r Hr];
      [unfold nrows in Hn; lia|].
    eapply member_has_identity; [done|].
    eapply Forall_forall; [exact Hall|].
    eapply list_elem_of_lookup_2. by rewrite lookup_take_lt. }
  clear Hall Hn. induction (seq 0 n) as [|i l IH].
  { exists []. constructor. }
  destruct (Hmem i) as [p Hp]; [left|].
  destruct IH as [ps Hps]; [intros; apply Hmem; by right|].
  exists (p :: ps). by constructor.
Qed.

Lemma in_range_keys (k : Z) (labels : list Z) :
  Forall (fun l => 0 <= l < k) labels ->
  Forall (fun l => is_Some (empty_clusters k !! l)) labels.
Proof.
  intros Hall. eapply Forall_impl; [exact Hall|]. intros l Hl. simpl in Hl.
  rewrite lookup_empty_clusters, decide_True by done. by eexists.
Qed.

(** X16.  A label outside 0..k-1 makes the report raise [KeyError]: the
    rows before it are listed, and at the first such label the lookup of
    the cluster fails, before the row itself is read. *)
Theorem report_rejects_label players_df k pre l post :
  (length pre <= nrows players_df)%nat ->
  Forall (has_identity players_df) (take (length pre) (rows players_df)) ->
  Forall (fun l' => 0 <= l' < k) pre ->
  ~ (0 <= l < k) ->
  report players_df (Some k) (Some (pre ++ l :: post)) = Raise KeyError.
Proof.
  intros Hlen Hid Hpre Hl.
  destruct (members_exist_prefix players_df (length pre) Hlen Hid) as [ps Hps].
  destruct (report_loop_prefix players_df pre (l :: post) 0 (empty_clusters k) ps
              Hps (in_range_keys k pre Hpre)) as (mid & Hlook & Hrun).
  unfold report, not_none. rewrite !result_bind_Ok, Hrun. simpl.
  unfold dict_getitem.
  by rewrite Hlook, lookup_empty_clusters, decide_False.
Qed.

(** X17.  When the member of a row cannot be built, the report raises
    what [member] raises for the first such row, and lists nothing. *)
Theorem report_raises_member_error players_df k pre l post e :
  Forall (has_identity players_df) (take (length pre) (rows players_df)) ->
  (length pre <= nrows players_df)%nat ->
  Forall (fun l' => 0 <= l' < k) pre ->
  0 <= l < k ->
  member players_df (length pre) = Raise e ->
  report players_df (Some k) (Some (pre ++ l :: post)) = Raise e.
Proof.
  intros Hid Hlen Hpre Hl Hfail.
  destruct (members_exist_prefix players_df (length pre) Hlen Hid) as [ps Hps].
  destruct (report_loop_prefix players_df pre (l :: post) 0 (empty_clusters k) ps
              Hps (in_range_keys k pre Hpre)) as (mid & Hlook & Hrun).
  unfold report, not_none. rewrite !result_bind_Ok, Hrun. simpl.
  unfold dict_getitem.
  rewrite Hlook, lookup_empty_clusters, decide_True by done. simpl.
  by rewrite Hfail.
Qed.

Lemma member_Ok_lt players_df i p :
  member players_df i = Ok p -> (i < nrows players_df)%nat.
Proof.
  intros (r & _ & Hr & _)%member_Ok. by apply lookup_lt_Some in Hr.
Qed.

(** What a run of the loop that returns tells about its input. *)
Lemma report_loop_Ok players_df labels : forall i clusters out,
  report_loop players_df i labels clusters = Ok out ->
  Forall (fun l => is_Some (clusters !! l)) labels
  /\ exists ps,
      Forall2 (fun k p => member players_df k = Ok p) (seq i (length labels)) ps.
Proof.
  induction labels as [|label rest IH]; intros i clusters out; simpl.
  { intros _. split; [done|]. exists []. constructor. }
  unfold dict_getitem.
  destruct (clusters !! label) as [m|] eqn:Hm; [|done].
  rewrite result_bind_Ok.
  destruct (member players_df i) as [p|e] eqn:Hp; [|done].
  rewrite result_bind_Ok.
  intros (Hkeys & ps & Hps)%IH. split.
  - constructor; [by rewrite Hm|].
    eapply Forall_impl; [exact Hkeys|]. intros l Hl. simpl in Hl.
    rewrite lookup_insert in Hl. case_decide; [by subst; rewrite Hm | done].
  - exists (p :: ps). by constructor.
Qed.

(** X18.  Whenever [cluster] returns a report, a count n in 2..8 was
    selected, the keys of the report are exactly 0..n-1, every label of
    the selected partition lies in 0..n-1, there are no more labels than
    rows, and the report lists one member per label in all. *)
Theorem cluster_report_keys players_df columns s clusters s' :
  cluster players_df columns s = (Ok clusters, s') ->
  exists b n labels,
    scan players_df columns s = (Ok b, s')
    /\ optimal_n b = Some n
    /\ optimal_clusters b = Some labels
    /\ 2 <= n <= 8
    /\ (dom clusters : gset Z) = list_to_set (range 0 n)
    /\ Forall (fun l => 0 <= l < n) labels
    /\ (length labels <= nrows players_df)%nat
    /\ listed clusters n = length labels.
Proof.
  unfold cluster. unfold mbind at 1. unfold M_bind at 1.
  destruct (scan players_df columns s) as [[b|e] s1] eqn:Hscan; [|done].
  unfold lift. destruct (report _ _ _) as [out|e] eqn:Hreport; [|done].
  intros [= <- <-].
  destruct (scan_Ok_candidates _ _ _ _ _ Hscan) as (cs & s2 & Hcs & Hb).
  destruct (candidates_Ok _ _ _ _ _ _ Hcs) as [Hns Hbound].
  rewrite range_2_9 in Hns.
  destruct (fold_update_initial cs) as (j & c & Hj & Hbest & _);
    [by destruct cs | done |].
  rewrite Hbest in Hb. subst b. simpl in Hreport.
  pose proof (candidate_count cs j c Hns Hj) as Hn.
  assert (j < 7)%nat as Hj7.
  { apply lookup_lt_Some in Hj.
    apply (f_equal length) in Hns. rewrite length_fmap in Hns. simpl in Hns. lia. }
  unfold report, not_none in Hreport. rewrite !result_bind_Ok in Hreport.
  destruct (report_loop_Ok _ _ _ _ _ Hreport) as (Hkeys & ps & Hps).
  assert (Forall (fun l => 0 <= l < cand_n c) (cand_labels c)) as Hrange.
  { eapply Forall_impl; [exact Hkeys|]. intros l Hl. simpl in Hl.
    rewrite lookup_empty_clusters in Hl. case_decide; [done|].
    by destruct Hl. }
  destruct (report_loop_spec players_df (cand_labels c) 0 (empty_clusters (cand_n c))
              ps Hps Hkeys) as (out' & Hout' & Hlook).
  rewrite Hreport in Hout'. injection Hout' as <-.
  assert (forall l, out !! l
            = if decide (0 <= l < cand_n c)
              then Some (members_with l (cand_labels c) ps) else None) as Hout_l.
  { intros l. rewrite Hlook, lookup_empty_clusters. by case_decide. }
  exists (best_of c), (cand_n c), (cand_labels c).
  split_and!; [done | done | done | lia | lia | | done | |].
  - apply set_eq. intros l.
    rewrite elem_of_dom, Hout_l, elem_of_list_to_set. unfold range.
    rewrite elem_of_seqZ. case_decide.
    + split; [lia | by eexists].
    + split; [by intros [? ?] | lia].
  - destruct (cand_labels c) as [|l0 ls] eqn:Hlabels using rev_ind; [simpl; lia|].
    clear IHls. rewrite length_app in Hps |- *. simpl in *.
    assert (exists p, member players_df (length ls) = Ok p) as [p Hp].
    { apply Forall2_lookup_l with (i := length ls) (x := length ls) in Hps
        as (p & _ & Hp); [eauto|].
      apply lookup_seq. lia. }
    apply member_Ok_lt in Hp. lia.
  - unfold listed.
    erewrite list_fmap_ext with
      (g := fun l => length (members_with l (cand_labels c) ps)).
    2:{ intros i l Hil. apply list_elem_of_lookup_2 in Hil.
        unfold range in Hil. apply elem_of_seqZ in Hil.
        by rewrite lookup_total_alt, Hout_l, decide_True by lia. }
    apply members_with_total; [apply NoDup_seqZ | |].
    + apply Forall2_length in Hps. rewrite length_seq in Hps. lia.
    + eapply Forall_impl; [exact Hrange|]. intros l Hl. simpl in Hl.
      apply elem_of_seqZ. lia.
Qed.

End Script.

(** ** The script on the sample data *)

(** C2.  For a row whose display name is "Smith, John" the member has the
    first name "John", and its last name is the first token as it stands,
    "Smith," with the comma; this is the entry the report lists.  So does
    a run of [cluster] on nine such players: every record it lists has the
    last name "Smith,". *)
Theorem smith_john_last_name_keeps_comma (pid : value) :
  let players_df := {| columns := ["PERSON_ID"; "DISPLAY_LAST_COMMA_FIRST"];
                       rows := [[pid; VStr "Smith, John"]] |} in
  let smith := {| player_id := pid; first_name := "John"; last_name := "Smith," |} in
  let smith_of (i : Z) :=
    {| player_id := VInt i; first_name := "John"; last_name := "Smith," |} in
  split "Smith, John" = ["Smith,"; "John"]
  /\ member players_df 0 = Ok smith
  /\ report players_df (Some 1) (Some [0]) = Ok {[ 0 := [smith] ]}
  /\ (cluster Sample.round_robin Sample.tied_score Sample.smiths ["PTS"; "AST"]
        Sample.start).1
     = Ok {[ 0 := smith_of <$> [100; 103; 106];
             1 := smith_of <$> [101; 104; 107];
             2 := smith_of <$> [102; 105; 108] ]}.
Proof. split_and!; [reflexivity..|]. vm_compute. reflexivity. Qed.

(** The stand-in score stays within the range of a silhouette score. *)
Lemma tied_score_lower_bound X labels q :
  Sample.tied_score X labels = Ok q -> (Q2Qc (-1) <= q)%Qc.
Proof.
  unfold Sample.tied_score. intros [= <-].
  repeat case_decide; by vm_compute.
Qed.

(** The stand-in coercion yields one integer per cell. *)
Lemma ints_of_column_length col : forall ints,
  Sample.ints_of_column col = Ok ints -> length ints = length col.
Proof.
  induction col as [|v col IH]; intros ints; simpl.
  { by intros [= <-]. }
  destruct (Sample.int_of_cell v) as [z|e]; [|done].
  rewrite result_bind_Ok.
  destruct (Sample.ints_of_column col) as [zs|e]; [|done].
  rewrite result_bind_Ok. intros [= <-]. simpl. by rewrite (IH zs).
Qed.

(** The scan on the nine sample players: 3 and 4 clusters tie, 3 is kept. *)
Lemma scan_keeps_first_maximal_witness :
  let cs := Sample.scored <$> range 2 9 in
  let columns := ["PTS"; "AST"] in
  exists s',
    candidates Sample.round_robin Sample.tied_score Sample.players columns
      (range 2 9) Sample.start = (Ok cs, s')
    /\ cand_n <$> cs = [2; 3; 4; 5; 6; 7; 8]
    /\ exists j c,
        cs !! j = Some c
        /\ Forall (fun c' => (cand_score c' <= cand_score c)%Qc) cs
        /\ (forall i c', (i < j)%nat -> cs !! i = Some c' ->
              (cand_score c' < cand_score c)%Qc)
        /\ (forall c', c' ∈ cs -> cand_score c' = cand_score c ->
              cand_n c <= cand_n c')
        /\ let s_end := {| world := world s';
                           trace := trace s' ++ [Printed (Returning (Some (cand_n c)))] |} in
           scan Sample.round_robin Sample.tied_score Sample.players columns Sample.start
           = (Ok (best_of c), s_end)
           /\ cluster Sample.round_robin Sample.tied_score Sample.players columns
                Sample.start
              = (report Sample.players (Some (cand_n c)) (Some (cand_labels c)), s_end).
Proof.
  eexists. split; [vm_compute; reflexivity|].
  apply (scan_keeps_first_maximal Sample.round_robin Sample.tied_score
           tied_score_lower_bound Sample.players ["PTS"; "AST"] Sample.start).
  vm_compute. reflexivity.
Defined.

(** The scan on the nine sample players returns with a selection. *)
Lemma scan_selects_count_in_range_witness :
  exists b s',
    scan Sample.round_robin Sample.tied_score Sample.players ["PTS"; "AST"] Sample.start
    = (Ok b, s')
    /\ exists n, optimal_n b = Some n /\ 2 <= n <= 8.
Proof.
  eexists _, _. split; [vm_compute; reflexivity|].
  eapply (scan_selects_count_in_range Sample.round_robin Sample.tied_score
            tied_score_lower_bound Sample.players ["PTS"; "AST"] Sample.start).
  vm_compute. reflexivity.
Defined.

(** The report of the sample roster for the labels 1, 0, 1. *)
Lemma report_partitions_rows_witness :
  let labels := [1; 0; 1] in
  length labels = nrows Sample.roster
  /\ Forall (fun l => 0 <= l < 2) labels
  /\ Forall (has_identity Sample.roster) (rows Sample.roster)
  /\ exists clusters ps,
      report Sample.roster (Some 2) (Some labels) = Ok clusters
      /\ Forall2 (fun i p => member Sample.roster i = Ok p)
           (seq 0 (nrows Sample.roster)) ps
      /\ (dom clusters : gset Z) = list_to_set (range 0 2)
      /\ (forall l, 0 <= l < 2 -> clusters !! l = Some (members_with l labels ps))
      /\ sum_list ((fun l => length (clusters !!! l)) <$> range 0 2)
         = nrows Sample.roster.
Proof.
  assert (Forall (has_identity Sample.roster) (rows Sample.roster)) as Hid.
  { repeat constructor; eexists _, _; (split_and!; [reflexivity..|discriminate]). }
  assert (Forall (fun l => 0 <= l < 2) [1; 0; 1]) as Hrange.
  { repeat constructor; lia. }
  split_and!; [reflexivity | exact Hrange | exact Hid |].
  exact (report_partitions_rows Sample.roster 2 [1; 0; 1] eq_refl Hrange Hid).
Defined.

(** The second row of the sample roster is named "Smith". *)
Lemma single_token_name_is_duplicated_witness :
  rows Sample.roster !! 1%nat = Some [VInt 202; VStr "Smith"; VInt 2018]
  /\ is_token "Smith" = true
  /\ member Sample.roster 1
     = Ok {| player_id := VInt 202; first_name := "Smith"; last_name := "Smith" |}.
Proof.
  split_and!; [reflexivity..|].
  exact (single_token_name_is_duplicated Sample.roster 1
           [VInt 202; VStr "Smith"; VInt 2018] (VInt 202) "Smith"
           eq_refl eq_refl eq_refl eq_refl).
Defined.


(** The collector on a roster whose fourth player the service refuses. *)
Lemma get_player_stats_aborts_witness :
  let pre := [VInt 201; VInt 202; VInt 203] in
  getitem_col Sample.roster_with_unknown "PERSON_ID"
  = Ok (pre ++ VInt 204 :: [VInt 201])
  /\ exists ts s1 s2,
      fetch_each Sample.service Sample.ints_of_column "u" Sample.user_agent 0 pre
        Sample.start = (Ok ts, s1)
      /\ get_player_career_reg_season_stats Sample.service Sample.ints_of_column
           (VInt 204) "u" Sample.user_agent s1
         = (Raise (External "ConnectionError"), s2)
      /\ get_player_stats Sample.service Sample.ints_of_column
           Sample.roster_with_unknown "u" Sample.user_agent Sample.start
         = (Raise (External "ConnectionError"), s2)
      /\ requests_of (trace s2)
         = stat_request "u" Sample.user_agent <$> pre ++ [VInt 204].
Proof.
  split; [reflexivity|].
  eexists _, _, _. split; [vm_compute; reflexivity|].
  split; [vm_compute; reflexivity|].
  exact (get_player_stats_aborts Sample.service Sample.ints_of_column
           Sample.roster_with_unknown "u" Sample.user_agent
           [VInt 201; VInt 202; VInt 203] (VInt 204) [VInt 201]
           Sample.start _ _ (External "ConnectionError") _
           eq_refl eq_refl eq_refl).
Defined.

(** The collector on a roster without rows. *)
Lemma get_player_stats_empty_witness :
  nrows Sample.no_players = 0%nat
  /\ is_Some (column_index Sample.no_players "PERSON_ID")
  /\ get_player_stats Sample.service Sample.ints_of_column Sample.no_players "u"
       Sample.user_agent Sample.start
     = (Raise UnboundLocalError, Sample.start).
Proof.
  split_and!; [reflexivity | by eexists |].
  apply get_player_stats_empty; [reflexivity | by eexists].
Defined.

(** The coerced columns of the sample result sets hold integers or digits. *)
Lemma roster_set_coercible :
  coercible Sample.ints_of_column Sample.roster_set "TO_YEAR".
Proof. exists 2%nat, [2018; 2018; 2018]. split; reflexivity. Qed.

Lemma career_totals_coercible :
  coercible Sample.ints_of_column (Sample.career_totals 201 12) "PLAYER_ID".
Proof. exists 0%nat, [201]. split; reflexivity. Qed.

(** Both fetchers on the sample service. *)
Lemma fetched_tables_keep_shape_witness :
  (well_shaped Sample.roster_set
   /\ exists t s',
       get_players_df Sample.service Sample.ints_of_column "u" Sample.user_agent
         Sample.start = (Ok t, s')
       /\ nrows t = 3%nat
       /\ columns t = ["PERSON_ID"; "DISPLAY_LAST_COMMA_FIRST"; "TO_YEAR"])
  /\ (well_shaped (Sample.career_totals 201 12)
      /\ exists t s',
          get_player_career_reg_season_stats Sample.service Sample.ints_of_column
            (VInt 201) "u" Sample.user_agent Sample.start = (Ok t, s')
          /\ nrows t = 1%nat
          /\ columns t = ["PLAYER_ID"; "PTS"; "AST"]).
Proof.
  assert (well_shaped Sample.roster_set) as Hroster.
  { repeat constructor. }
  assert (well_shaped (Sample.career_totals 201 12)) as Hcareer.
  { repeat constructor. }
  split; (split; [done|]).
  - destruct (fetched_tables_keep_shape Sample.service Sample.ints_of_column
                ints_of_column_length Sample.roster_set Hroster) as [Hfetch _].
    destruct (Hfetch "u" Sample.user_agent Sample.start _ _ eq_refl eq_refl
                roster_set_coercible) as (t & Ht & Hn & Hc).
    eexists t, _. split_and!; [exact Ht | exact Hn | exact Hc].
  - destruct (fetched_tables_keep_shape Sample.service Sample.ints_of_column
                ints_of_column_length (Sample.career_totals 201 12) Hcareer)
      as [_ Hfetch].
    destruct (Hfetch (VInt 201) "u" Sample.user_agent Sample.start _ _ eq_refl eq_refl
                career_totals_coercible) as (t & Ht & Hn & Hc).
    eexists t, _. split_and!; [exact Ht | exact Hn | exact Hc].
Defined.

(** ** The further properties on the sample data *)

(** A response with the roster alone has no second result set. *)
Lemma stats_need_second_result_set_witness :
  (get_player_career_reg_season_stats Sample.roster_everywhere Sample.ints_of_column
     (VInt 201) "u" Sample.user_agent Sample.start).1
  = Raise IndexError.
Proof.
  eapply (stats_need_second_result_set Sample.roster_everywhere
            Sample.ints_of_column (VInt 201) "u" Sample.user_agent Sample.start).
  - reflexivity.
  - simpl. lia.
Defined.

(** The season totals of a player have no column TO_YEAR. *)
Lemma roster_needs_to_year_witness :
  well_shaped (Sample.season_totals 201)
  /\ ("TO_YEAR" ∉ rs_headers (Sample.season_totals 201))
  /\ (get_players_df Sample.career_everywhere Sample.ints_of_column "u"
        Sample.user_agent Sample.start).1
     = Raise AttributeError.
Proof.
  assert (well_shaped (Sample.season_totals 201)) as Hshape.
  { repeat constructor. }
  assert ("TO_YEAR" ∉ rs_headers (Sample.season_totals 201)) as Hno.
  { simpl. intros Hin.
    repeat (apply elem_of_cons in Hin as [Hin|Hin]; [discriminate|]).
    by apply elem_of_nil in Hin. }
  split_and!; [exact Hshape | exact Hno |].
  exact (roster_needs_to_year Sample.career_everywhere Sample.ints_of_column "u"
           Sample.user_agent Sample.start _ _ (Sample.season_totals 201)
           eq_refl eq_refl Hshape Hno).
Defined.

(** Two seasons of player 201, as the Stat Fetcher returns them: the
    games played beside a null and the points beside a float are stored
    as floats. *)
Lemma stats_table_cells_witness :
  exists t s',
    get_player_career_reg_season_stats Sample.seasons_everywhere
      Sample.ints_of_column (VInt 201) "u" Sample.user_agent Sample.start
    = (Ok t, s')
    /\ getitem_col t "PLAYER_ID" = Ok [VInt 201; VInt 201]
    /\ getitem_col t "SEASON_ID" = Ok [VStr "2016-17"; VStr "2017-18"]
    /\ getitem_col t "GP" = Ok [VFloat (Q2Qc 5); VNone]
    /\ getitem_col t "PTS" = Ok [VFloat (Q2Qc (3 # 2)); VFloat (Q2Qc 2)].
Proof.
  assert (well_shaped Sample.seasons) as Hshape.
  { repeat constructor. }
  assert (NoDup (rs_headers Sample.seasons)) as Hnodup.
  { apply (bool_decide_unpack _). by vm_compute. }
  assert (Forall (Forall (fun v => plain_cell v = true)) (rs_rowSet Sample.seasons))
    as Hplain.
  { repeat constructor. }
  eexists _, _. split; [vm_compute; reflexivity|].
  destruct (stats_table_cells Sample.seasons_everywhere Sample.ints_of_column
              ints_of_column_length (VInt 201) "u" Sample.user_agent Sample.start
              _ _ Sample.seasons _ _
              eq_refl eq_refl Hshape Hnodup Hplain eq_refl)
    as [(k & ints & Hk & Hints & Hid) Hother].
  vm_compute in Hk. injection Hk as <-.
  vm_compute in Hints. injection Hints as <-.
  split_and!.
  - exact Hid.
  - exact (Hother "SEASON_ID" 1%nat ltac:(discriminate) eq_refl).
  - exact (Hother "GP" 2%nat ltac:(discriminate) eq_refl).
  - exact (Hother "PTS" 3%nat ltac:(discriminate) eq_refl).
Defined.

(** A table of statistics is not a roster. *)
Lemma get_player_stats_needs_person_id_witness :
  let stats := {| columns := ["PLAYER_ID"; "PTS"]; rows := [[VInt 201; VInt 12]] |} in
  ("PERSON_ID" ∉ columns stats)
  /\ get_player_stats Sample.service Sample.ints_of_column stats "u"
       Sample.user_agent Sample.start
     = (Raise KeyError, Sample.start).
Proof.
  assert ("PERSON_ID" ∉ ["PLAYER_ID"; "PTS"]) as Hno.
  { intros Hin.
    repeat (apply elem_of_cons in Hin as [Hin|Hin]; [discriminate|]).
    by apply elem_of_nil in Hin. }
  split; [exact Hno|].
  by apply get_player_stats_needs_person_id.
Defined.

(** The trace of the collector on the sample roster. *)
Lemma get_player_stats_trace_witness :
  exists joined s',
    get_player_stats Sample.service Sample.ints_of_column Sample.roster "u"
      Sample.user_agent Sample.start = (Ok joined, s')
    /\ trace s'
       = [Requested (stat_request "u" Sample.user_agent (VInt 201));
          Printed (Added 0 (VInt 201)); Slept 2;
          Requested (stat_request "u" Sample.user_agent (VInt 202));
          Printed (Added 1 (VInt 202)); Slept 2;
          Requested (stat_request "u" Sample.user_agent (VInt 203));
          Printed (Added 2 (VInt 203)); Slept 2].
Proof.
  eexists _, _. split; [vm_compute; reflexivity|].
  exact (get_player_stats_trace Sample.service Sample.ints_of_column Sample.roster
           "u" Sample.user_agent [VInt 201; VInt 202; VInt 203] Sample.start _ _
           eq_refl eq_refl).
Defined.

(** The joined sample roster has its three rows. *)
Lemma get_player_stats_keeps_roster_witness :
  exists joined s',
    get_player_stats Sample.service Sample.ints_of_column Sample.roster "u"
      Sample.user_agent Sample.start = (Ok joined, s')
    /\ (nrows Sample.roster <= nrows joined)%nat
    /\ (forall r, r ∈ rows joined ->
          exists l x, l ∈ rows Sample.roster /\ r = l ++ x)
    /\ (forall l, l ∈ rows Sample.roster -> exists x, l ++ x ∈ rows joined).
Proof.
  eexists _, _. split; [vm_compute; reflexivity|].
  exact (get_player_stats_keeps_roster Sample.service Sample.ints_of_column
           Sample.roster "u" Sample.user_agent Sample.start _ _ eq_refl).
Defined.

(** The three answers of the sample service, one of them without a
    record, have the same labels and hold integers alone. *)
Lemma get_player_stats_concatenates_witness :
  let cols := ["PLAYER_ID"; "PTS"; "AST"] in
  let pids := [VInt 201; VInt 202; VInt 203] in
  pids <> []
  /\ exists ts s',
      fetch_each Sample.service Sample.ints_of_column "u" Sample.user_agent 0
        pids Sample.start = (Ok ts, s')
      /\ NoDup cols
      /\ Forall (fun t => columns t = cols) ts
      /\ plain_cells ts = true
      /\ unmixed (length cols) ts = true
      /\ get_player_stats_loop Sample.service Sample.ints_of_column "u"
           Sample.user_agent 0 pids None Sample.start
         = (Ok (Some {| columns := cols;
                        rows := [[VInt 201; VInt 12; VInt 7];
                                 [VInt 203; VInt 25; VInt 20]] |}), s').
Proof.
  split; [discriminate|].
  eexists _, _. split; [vm_compute; reflexivity|].
  assert (Forall (fun t => columns t = ["PLAYER_ID"; "PTS"; "AST"])
            [{| columns := ["PLAYER_ID"; "PTS"; "AST"];
                rows := [[VInt 201; VInt 12; VInt 7]] |};
             {| columns := ["PLAYER_ID"; "PTS"; "AST"]; rows := [] |};
             {| columns := ["PLAYER_ID"; "PTS"; "AST"];
                rows := [[VInt 203; VInt 25; VInt 20]] |}]) as Hcols.
  { repeat constructor. }
  assert (NoDup ["PLAYER_ID"; "PTS"; "AST"]) as Hnodup.
  { apply (bool_decide_unpack _). by vm_compute. }
  split_and!; [exact Hnodup | exact Hcols | reflexivity | reflexivity |].
  exact (get_player_stats_concatenates Sample.service Sample.ints_of_column
           "u" Sample.user_agent [VInt 201; VInt 202; VInt 203]
           Sample.start _ _ ["PLAYER_ID"; "PTS"; "AST"]
           ltac:(discriminate) eq_refl Hnodup Hcols eq_refl eq_refl).
Defined.

(** "De La Cruz, Juan Carlos" *)
Lemma member_takes_outer_tokens_witness :
  unwords ["De"; "La"; "Cruz,"; "Juan"; "Carlos"] = "De La Cruz, Juan Carlos"
  /\ member Sample.odd_names 0
     = Ok {| player_id := VInt 301; first_name := "Carlos"; last_name := "De" |}.
Proof.
  split; [reflexivity|].
  apply (member_takes_outer_tokens Sample.odd_names 0
           [VInt 301; VStr "De La Cruz, Juan Carlos"] (VInt 301)
           ["De"; "La"; "Cruz,"; "Juan"; "Carlos"]); try reflexivity.
  repeat constructor.
Defined.

(** The names of the first member of the sample roster. *)
Lemma member_names_are_tokens_witness :
  let p := {| player_id := VInt 201; first_name := "John"; last_name := "Smith," |} in
  member Sample.roster 0 = Ok p
  /\ is_token (first_name p) = true
  /\ is_token (last_name p) = true.
Proof.
  split; [reflexivity|].
  exact (member_names_are_tokens Sample.roster 0 _ eq_refl).
Defined.

(** A feature the sample players do not have. *)
Lemma cluster_needs_feature_columns_witness :
  ("BLK" ∈ ["PTS"; "BLK"])
  /\ ("BLK" ∉ columns Sample.players)
  /\ cluster Sample.round_robin Sample.tied_score Sample.players ["PTS"; "BLK"]
       Sample.start
     = (Raise KeyError, Sample.start).
Proof.
  assert ("BLK" ∈ ["PTS"; "BLK"]) as Hin.
  { right. left. }
  assert ("BLK" ∉ columns Sample.players) as Hno.
  { simpl. intros H.
    repeat (apply elem_of_cons in H as [H|H]; [discriminate|]).
    by apply elem_of_nil in H. }
  split_and!; [exact Hin | exact Hno |].
  exact (cluster_needs_feature_columns Sample.round_robin Sample.tied_score
           Sample.players ["PTS"; "BLK"] Sample.start "BLK" Hin Hno).
Defined.

(** The scan with a fit that fails for five clusters. *)
Lemma cluster_aborts_on_first_failure_witness :
  exists cs s1 s2,
    candidates Sample.fails_at_five Sample.tied_score Sample.players ["PTS"; "AST"]
      [2; 3; 4] Sample.start = (Ok cs, s1)
    /\ evaluate Sample.fails_at_five Sample.tied_score Sample.players ["PTS"; "AST"]
         5 s1 = (Raise (External "ConvergenceError"), s2)
    /\ cluster Sample.fails_at_five Sample.tied_score Sample.players ["PTS"; "AST"]
         Sample.start
       = (Raise (External "ConvergenceError"), s2).
Proof.
  eexists _, _, _. split; [vm_compute; reflexivity|].
  split; [vm_compute; reflexivity|].
  exact (cluster_aborts_on_first_failure Sample.fails_at_five Sample.tied_score
           Sample.players ["PTS"; "AST"] [2; 3; 4] 5 [6; 7; 8] Sample.start
           _ _ (External "ConvergenceError") _ eq_refl eq_refl eq_refl).
Defined.

(** The scan with a score that never exceeds -99. *)
Lemma cluster_without_selection_witness :
  exists cs s',
    candidates Sample.round_robin Sample.low_score Sample.players ["PTS"; "AST"]
      (range 2 9) Sample.start = (Ok cs, s')
    /\ Forall (fun c => (cand_score c <= Q2Qc (-99))%Qc) cs
    /\ cluster Sample.round_robin Sample.low_score Sample.players ["PTS"; "AST"]
         Sample.start
       = (Raise TypeError,
          {| world := world s'; trace := trace s' ++ [Printed (Returning None)] |}).
Proof.
  eexists _, _. split; [vm_compute; reflexivity|].
  assert (forall c, cand_score c = Q2Qc (-100) ->
                    (cand_score c <= Q2Qc (-99))%Qc) as Hlow.
  { intros c ->. by vm_compute. }
  match goal with
  | |- Forall ?P ?cs /\ _ =>
      assert (Forall P cs) as Hall by (repeat constructor; by apply Hlow)
  end.
  split; [exact Hall|].
  exact (cluster_without_selection Sample.round_robin Sample.low_score
           Sample.players ["PTS"; "AST"] Sample.start _ _ eq_refl Hall).
Defined.

(** The lines of the scan on the sample players. *)
Lemma scan_prints_scores_witness :
  exists b s',
    scan Sample.round_robin Sample.tied_score Sample.players ["PTS"; "AST"]
      Sample.start = (Ok b, s')
    /\ exists cs,
        cand_n <$> cs = [2; 3; 4; 5; 6; 7; 8]
        /\ trace s'
           = trace Sample.start ++ (score_line <$> cs)
             ++ [Printed (Returning (optimal_n b))].
Proof.
  eexists _, _. split; [vm_compute; reflexivity|].
  eapply (scan_prints_scores Sample.round_robin Sample.tied_score Sample.players
            ["PTS"; "AST"] Sample.start).
  vm_compute. reflexivity.
Defined.

(** The label 2 with two clusters. *)
Lemma report_rejects_label_witness :
  report Sample.roster (Some 2) (Some ([1] ++ 2 :: [0])) = Raise KeyError.
Proof.
  apply (report_rejects_label Sample.roster 2 [1] 2 [0]).
  - simpl. unfold nrows. simpl. lia.
  - repeat constructor. eexists _, _. split_and!; [reflexivity..|discriminate].
  - repeat constructor; lia.
  - lia.
Defined.

(** The blank name of the second row. *)
Lemma report_raises_member_error_witness :
  member Sample.odd_names 1 = Raise IndexError
  /\ report Sample.odd_names (Some 2) (Some ([1] ++ 0 :: [1])) = Raise IndexError.
Proof.
  split; [reflexivity|].
  apply (report_raises_member_error Sample.odd_names 2 [1] 0 [1] IndexError).
  - repeat constructor. eexists _, _. split_and!; [reflexivity..|discriminate].
  - simpl. unfold nrows. simpl. lia.
  - repeat constructor; lia.
  - lia.
  - reflexivity.
Defined.

(** The report of the sample players. *)
Lemma cluster_report_keys_witness :
  exists clusters s',
    cluster Sample.round_robin Sample.tied_score Sample.players ["PTS"; "AST"]
      Sample.start = (Ok clusters, s')
    /\ exists b n labels,
        scan Sample.round_robin Sample.tied_score Sample.players ["PTS"; "AST"]
          Sample.start = (Ok b, s')
        /\ optimal_n b = Some n
        /\ optimal_clusters b = Some labels
        /\ 2 <= n <= 8
        /\ (dom clusters : gset Z) = list_to_set (range 0 n)
        /\ Forall (fun l => 0 <= l < n) labels
        /\ (length labels <= nrows Sample.players)%nat
        /\ listed clusters n = length labels.
Proof.
  eexists _, _. split; [vm_compute; reflexivity|].
  eapply (cluster_report_keys Sample.round_robin Sample.tied_score
            tied_score_lower_bound Sample.players ["PTS"; "AST"] Sample.start).
  vm_compute. reflexivity.
Defined.

(** The failures of [member] on the players with odd names. *)
Lemma member_failures_witness :
  member Sample.odd_names 3 = Raise IndexError
  /\ member {| columns := ["DISPLAY_LAST_COMMA_FIRST"]; rows := [[VStr "Smith"]] |} 0
     = Raise KeyError
  /\ member Sample.odd_names 2 = Raise AttributeError
  /\ member Sample.odd_names 1 = Raise IndexError.
Proof.
  split_and!.
  - apply (member_failures Sample.odd_names 3). unfold nrows. simpl. lia.
  - eapply (member_failures
              {| columns := ["DISPLAY_LAST_COMMA_FIRST"]; rows := [[VStr "Smith"]] |} 0);
      [reflexivity|].
    intros Hin.
    repeat (apply elem_of_cons in Hin as [Hin|Hin]; [discriminate|]).
    by apply elem_of_nil in Hin.
  - eapply (member_failures Sample.odd_names 2); [reflexivity..|]. discriminate.
  - eapply (member_failures Sample.odd_names 1); reflexivity.
Defined.
